(** * Chunk normalisation and mask wrappers of python-graphblas

    A shallow embedding of [normalize_chunks] and of the other helpers of
    graphblas/core/utils.py, and of the [Mask] class hierarchy (grblas/mask.py),
    with the properties their specification states about them and further
    properties read off the code. *)

From Stdlib Require Import ZArith Bool Lia.
From Stdlib Require Import Floats.SpecFloat.
From Stdlib Require Import Ascii.
From stdpp Require Import base list strings gmap.

Set Warnings "-register-all".
Local Open Scope Z_scope.

(** ** Python values *)

(** [isinstance(x, (list, tuple))] never tells the two apart; the tag is kept
    so that [(c,) * len(shape)] reads as the tuple it is. *)
Inductive seq_kind := KList | KTuple.

(** The values [normalize_chunks] dispatches on.
    - [PyInt]: an instance of [numbers.Integral] ([int], [bool], numpy integer
      scalars), by its value;
    - [PyFloat]: a [float], an IEEE binary64 number;
    - [PyNumber]: a [numbers.Number] that is neither Integral nor a float
      ([complex], [Fraction], [Decimal]);
    - [PySeq]: a [list] or a [tuple];
    - [PyIntArray]: a [numpy.ndarray] whose dtype is a sub-dtype of
      [numpy.integer], by its shape and its entries in C order;
    - [PyArray]: a [numpy.ndarray] of any other dtype;
    - [PyObject]: an object of any other type. *)
Inductive pyval :=
| PyNone
| PyInt (n : Z)
| PyFloat (f : spec_float)
| PyNumber
| PySeq (k : seq_kind) (items : list pyval)
| PyIntArray (dims : list nat) (flat : list Z)
| PyArray (dims : list nat) (flat : list pyval)
| PyObject.

(** ** Exceptions *)

Inductive exn :=
| TypeError
| ValueError
| ZeroDivisionError
| OverflowError
| MemoryError.

Inductive result (A : Type) :=
| Ok (a : A)
| Raise (e : exn).
Arguments Ok {A} a.
Arguments Raise {A} e.

Definition bind {A B} (r : result A) (k : A -> result B) : result B :=
  match r with
  | Ok a => k a
  | Raise e => Raise e
  end.

Notation "x <- r ;; k" := (bind r (fun x => k))
  (at level 100, r at next level, right associativity).

(** ** Builtins *)

(** [float.is_integer()]: finite and without fractional part. *)
Definition is_integer (f : spec_float) : bool :=
  match f with
  | S754_zero _ => true
  | S754_finite _ m e =>
      if 0 <=? e then true else Z.pos m mod 2 ^ (- e) =? 0
  | S754_infinity _ | S754_nan => false
  end.

(** [int(f)] on a finite float: truncation towards zero. *)
Definition int_of_float (f : spec_float) : Z :=
  match f with
  | S754_finite s m e =>
      let v := if 0 <=? e then Z.pos m * 2 ^ e else Z.pos m / 2 ^ (- e) in
      if s then - v else v
  | _ => 0
  end.

(** [isinstance(c, Integral) or isinstance(c, float) and c.is_integer()],
    with [int(c)] when it holds. *)
Definition whole (c : pyval) : option Z :=
  match c with
  | PyInt n => Some n
  | PyFloat f => if is_integer f then Some (int_of_float f) else None
  | _ => None
  end.

(** [isinstance(chunks, Number)]. *)
Definition is_number (v : pyval) : bool :=
  match v with
  | PyInt _ | PyFloat _ | PyNumber => true
  | _ => false
  end.

(** [divmod(a, b)] on integers: floor division, the remainder has the sign of
    the divisor. *)
Definition py_divmod (a b : Z) : result (Z * Z) :=
  if b =? 0 then Raise ZeroDivisionError else Ok (a / b, a mod b).

(** [sys.maxsize] of a 64-bit CPython, the largest [Py_ssize_t]. *)
Definition maxsize : Z := 2 ^ 63 - 1.

(** The longest list CPython allocates: [maxsize] over the size of a
    pointer. *)
Definition max_list_len : Z := maxsize / 8.

(** [[x] * n].  [n] is read as a [Py_ssize_t], with [OverflowError] when it
    does not fit; the list is empty when [n <= 0]; a list longer than
    [max_list_len] is refused with [MemoryError].  Up to that length the
    allocation is taken to succeed. *)
Definition py_repeat (x n : Z) : result (list Z) :=
  if (n <? - maxsize - 1) || (maxsize <? n) then Raise OverflowError
  else if max_list_len <? n then Raise MemoryError
  else Ok (replicate (Z.to_nat n) x).

(** [sum(l)]: a left fold from [0]. *)
Definition py_sum (l : list Z) : Z := fold_left Z.add l 0.

(** [len(x)]; only sequences have a length here. *)
Definition py_len (v : pyval) : result nat :=
  match v with
  | PySeq _ items => Ok (length items)
  | _ => Raise TypeError
  end.

Definition py_items (v : pyval) : list pyval :=
  match v with
  | PySeq _ items => items
  | _ => []
  end.

(** ** [ndarray.tolist()] *)

(** [n] consecutive blocks of [k] entries. *)
Fixpoint blocks {A} (n k : nat) (l : list A) : list (list A) :=
  match n with
  | O => []
  | S n' => take k l :: blocks n' k (drop k l)
  end.

(** A 0-d array gives its scalar, an n-d array the list of its sub-arrays. *)
Fixpoint tolist (dims : list nat) (flat : list pyval) : pyval :=
  match dims with
  | [] => default PyNone (head flat)
  | n :: ds => PySeq KList (map (tolist ds) (blocks n (foldr Nat.mul 1%nat ds) flat))
  end.

(** ** [normalize_chunks] *)

(** The loop over the entries of one dimension's list or tuple (lines 172-189):
    [cur_chunks] and [none_index] are the loop's two variables. *)
Fixpoint nested_loop (chunk : list pyval) (cur_chunks : list Z)
    (none_index : option nat) : result (list Z * option nat) :=
  match chunk with
  | [] => Ok (cur_chunks, none_index)
  | c :: rest =>
      step <-
        match whole c with
        | Some n => if n <? 0 then Raise ValueError else Ok (n, none_index)
        | None =>
            match c with
            | PyNone =>
                match none_index with
                | Some _ => Raise TypeError
                | None => Ok (0, Some (length cur_chunks))
                end
            | _ => Raise TypeError
            end
        end ;;
      let '(c', none_index') := step in
      nested_loop rest (cur_chunks ++ [c']) none_index'
  end.

(** The body of the loop over the dimensions (lines 159-212). *)
Definition normalize_dim (size : Z) (chunk : pyval) : result (list Z) :=
  match chunk with
  | PyNone => Ok [size]
  | _ =>
      match whole chunk with
      | Some c =>
          if c <? 0 then Raise ValueError
          else
            dm <- py_divmod size c ;;
            let '(div, rem) := dm in
            cur_chunks <- py_repeat c div ;;
            Ok (cur_chunks ++ (if rem =? 0 then [] else [rem]))
      | None =>
          match chunk with
          | PySeq _ items =>
              final <- nested_loop items [] None ;;
              let '(cur_chunks, none_index) := final in
              match none_index with
              | Some i =>
                  let fill := size - py_sum cur_chunks in
                  if fill <? 0 then Raise ValueError
                  else Ok (<[i:=fill]> cur_chunks)
              | None => Ok cur_chunks
              end
          | PyIntArray dims flat =>
              if negb (length dims =? 1)%nat then Raise TypeError
              else if existsb (fun x => x <? 0) flat then Raise ValueError
              else Ok flat
          | PyArray _ _ => Raise TypeError
          | _ => Raise TypeError
          end
      end
  end.

(** [for size, chunk in zip(shape, chunks)]: the first exception ends the call. *)
Fixpoint for_dims (shape : list Z) (chunks : list pyval) : result (list (list Z)) :=
  match shape, chunks with
  | size :: shape', chunk :: chunks' =>
      cur_chunks <- normalize_dim size chunk ;;
      chunksizes <- for_dims shape' chunks' ;;
      Ok (cur_chunks :: chunksizes)
  | _, _ => Ok []
  end.

(** Lines 142-151: what [chunks] is rebound to before its length is taken. *)
Definition as_sequence (chunks : pyval) (shape : list Z) : result pyval :=
  match chunks with
  | PySeq _ _ => Ok chunks
  | PyInt _ | PyFloat _ | PyNumber =>
      Ok (PySeq KTuple (replicate (length shape) chunks))
  | PyIntArray dims flat => Ok (tolist dims (map PyInt flat))
  | PyArray dims flat => Ok (tolist dims flat)
  | _ => Raise TypeError
  end.

Definition normalize_chunks (chunks : pyval) (shape : list Z)
  : result (list (list Z)) :=
  chunks <- as_sequence chunks shape ;;
  n <- py_len chunks ;;
  if negb (n =? length shape)%nat then Raise ValueError
  else for_dims shape (py_items chunks).

(** ** Dimensions of a call *)

(** The per-dimension specs the loop of [normalize_chunks] iterates over. *)
Definition specs_of (chunks : pyval) (shape : list Z) : list pyval :=
  match as_sequence chunks shape with
  | Ok v => py_items v
  | Raise _ => []
  end.

(** Dimension [i] of the call has size [size] and spec [chunk]. *)
Definition dimension (chunks : pyval) (shape : list Z) (i : nat)
    (size : Z) (chunk : pyval) : Prop :=
  shape !! i = Some size /\ specs_of chunks shape !! i = Some chunk.

Definition is_ok {A} (r : result A) : bool :=
  match r with
  | Ok _ => true
  | Raise _ => false
  end.

(** The loop gets to dimension [i]: the length check passed and no earlier
    dimension raised. *)
Definition reached (chunks : pyval) (shape : list Z) (i : nat) : bool :=
  (length (specs_of chunks shape) =? length shape)%nat
  && is_ok (for_dims (take i shape) (take i (specs_of chunks shape))).

(** ** Shapes of a dimension's spec *)

Definition is_none (c : pyval) : bool :=
  match c with
  | PyNone => true
  | _ => false
  end.

(** The entries of a nested spec as whole numbers, when they all are. *)
Definition wholes (items : list pyval) : option (list Z) := mapM whole items.

Definition negative (n : Z) : bool := n <? 0.

(** A whole number below zero. *)
Definition negative_whole (c : pyval) : bool :=
  match whole c with
  | Some n => negative n
  | None => false
  end.

(** The specs whose partition is computed from the dimension's size: absent, a
    whole-number chunk size, a nested sequence with a placeholder. *)
Definition sized_from_dimension (chunk : pyval) : bool :=
  match chunk with
  | PyNone => true
  | PySeq _ items => existsb is_none items
  | _ => match whole chunk with Some _ => true | None => false end
  end.

(** ** Masks *)

Module Mask.

(** The base class and its four subclasses. *)
Inductive klass :=
| Mask
| StructuralMask
| ValueMask
| ComplementedStructuralMask
| ComplementedValueMask.

(** An instance: its class and the object it wraps ([self.mask]). *)
Record instance (object : Type) := New { class_of : klass; mask : object }.
Arguments New {object} _ _.
Arguments class_of {object} _.
Arguments mask {object} _.

(** The class attributes, found through the instance's class. *)
Definition complement {object} (m : instance object) : bool :=
  match class_of m with
  | ComplementedStructuralMask | ComplementedValueMask => true
  | _ => false
  end.

Definition structure {object} (m : instance object) : bool :=
  match class_of m with
  | StructuralMask | ComplementedStructuralMask => true
  | _ => false
  end.

Definition value {object} (m : instance object) : bool :=
  match class_of m with
  | ValueMask | ComplementedValueMask => true
  | _ => false
  end.

(** [~m]; the base class defines no [__invert__]. *)
Definition invert {object} (m : instance object) : result (instance object) :=
  match class_of m with
  | Mask => Raise TypeError
  | StructuralMask => Ok (New ComplementedStructuralMask (mask m))
  | ValueMask => Ok (New ComplementedValueMask (mask m))
  | ComplementedStructuralMask => Ok (New StructuralMask (mask m))
  | ComplementedValueMask => Ok (New ValueMask (mask m))
  end.

Definition is_variant (c : klass) : bool :=
  match c with
  | Mask => false
  | _ => true
  end.

End Mask.

(** ** The value [normalize_chunks] returns *)

(** A list of lists of [int], as the Python object it is. *)
Definition returned (chunksizes : list (list Z)) : pyval :=
  PySeq KList (map (fun cur_chunks => PySeq KList (map PyInt cur_chunks)) chunksizes).

(** ** Floats without fractional part *)

(** [int(c)], where the code applies it to a float. *)
Definition as_int (c : pyval) : pyval :=
  match c with
  | PyFloat f => if is_integer f then PyInt (int_of_float f) else c
  | _ => c
  end.

(** [chunks] with every such float, as a scalar, as a dimension's chunk size
    or as an entry of a dimension's list, replaced by its [int]. *)
Definition ints_for_floats (chunks : pyval) : pyval :=
  match chunks with
  | PySeq k specs =>
      PySeq k (map (fun chunk =>
                      match chunk with
                      | PySeq k' items => PySeq k' (map as_int items)
                      | _ => as_int chunk
                      end) specs)
  | _ => as_int chunks
  end.

(** ** The other helpers of utils.py *)

Module Utils.

Inductive exception :=
| AttributeError
| ValueError
| FileNotFoundError
| CalledProcessError.

Inductive outcome (A : Type) :=
| Return (a : A)
| Throw (e : exception).
Arguments Return {A} a.
Arguments Throw {A} e.

(** *** [libget] *)

(** [s[n:]]. *)
Fixpoint slice_from (n : nat) (s : string) : string :=
  match n, s with
  | S n', String _ s' => slice_from n' s'
  | _, _ => s
  end.

(** [getattr(lib, name)], [lib] by its attributes. *)
Definition getattr {V} (lib : gmap string V) (name : string) : outcome V :=
  match lib !! name with
  | Some v => Return v
  | None => Throw AttributeError
  end.

(** The bare [raise] re-raises the [AttributeError] of the first lookup. *)
Definition libget {V} (lib : gmap string V) (name : string) : outcome V :=
  match getattr lib name with
  | Return v => Return v
  | Throw AttributeError =>
      let ext_name := "GxB_" +:+ slice_from 4 name in
      match getattr lib ext_name with
      | Return v => Return v
      | Throw AttributeError => Throw AttributeError
      | Throw e => Throw e
      end
  | Throw e => Throw e
  end.

(** *** [_get_subdtype] *)

(** A numpy dtype: [subdtype] is [None], or the pair of a base dtype and a
    shape. *)
Inductive np_dtype :=
| DType (name : string)
| SubArray (base : np_dtype) (shape : list nat).

Definition subdtype (dtype : np_dtype) : option (np_dtype * list nat) :=
  match dtype with
  | DType _ => None
  | SubArray base shape => Some (base, shape)
  end.

(** [while dtype.subdtype is not None: dtype = dtype.subdtype[0]]. *)
Fixpoint _get_subdtype (dtype : np_dtype) : np_dtype :=
  match dtype with
  | SubArray base _ => _get_subdtype base
  | DType _ => dtype
  end.

(** *** [get_shape] *)

(** A graphblas dtype, by its [np_type]. *)
Record DataType := { np_type : np_dtype }.

(** The [for ... else] loop over [arrays.items()]; an array by its [shape], so
    that [arr.ndim] is its length.  [None] when the loop ends without [break]. *)
(** Whether the loop body reaches a [break] on the item [name, arr]. *)
Definition breaks (is_subarray : bool) (name : string) (arr : list Z) : bool :=
  if String.eqb name "values" && is_subarray then (3 <=? length arr)%nat
  else (length arr =? 2)%nat.

Fixpoint first_with_shape (is_subarray : bool) (arrays : list (string * list Z))
  : option (list Z) :=
  match arrays with
  | [] => None
  | (name, arr) :: rest =>
      if breaks is_subarray name arr then Some arr
      else first_with_shape is_subarray rest
  end.

Definition get_shape (nrows ncols : option Z) (dtype : option DataType)
    (arrays : list (string * list Z)) : outcome (Z * Z) :=
  match nrows, ncols with
  | Some r, Some c => Return (r, c)
  | _, _ =>
      match dtype with
      | None => Throw AttributeError
      | Some dtype =>
          let is_subarray :=
            match subdtype (np_type dtype) with Some _ => true | None => false end in
          match first_with_shape is_subarray arrays with
          | None => Throw ValueError
          | Some arr =>
              let nrows := match nrows with None => arr !!! 0%nat | Some r => r end in
              let ncols := match ncols with None => arr !!! 1%nat | Some c => c end in
              Return (nrows, ncols)
          end
      end
  end.

(** *** [get_order] *)

(** [str.lower()] on one character, code points below 256: the capitals are
    [A]-[Z] and U+00C0-U+00DE without the multiplication sign. *)
Definition lower_char (c : ascii) : ascii :=
  let n := nat_of_ascii c in
  if ((65 <=? n) && (n <=? 90)
      || (192 <=? n) && (n <=? 222) && negb (n =? 215))%nat
  then ascii_of_nat (n + 32)
  else c.

Fixpoint lower (s : string) : string :=
  match s with
  | EmptyString => EmptyString
  | String c s' => String (lower_char c) (lower s')
  end.

Definition rowwise_names : gset string :=
  {[ "c"; "row"; "rows"; "rowwise" ]}.

Definition columnwise_names : gset string :=
  {[ "f"; "col"; "cols"; "column"; "columns"; "colwise"; "columnwise" ]}.

Definition get_order (order : string) : outcome string :=
  let val := lower order in
  if bool_decide (val ∈ rowwise_names) then Return "rowwise"
  else if bool_decide (val ∈ columnwise_names) then Return "columnwise"
  else Throw ValueError.

(** *** [_autogenerate_code] *)

(** A [str] is the list of its characters here.  [find sub s i] is the first
    place of [s], counted from [i], where [sub] starts. *)
Fixpoint find (sub s : list ascii) (i : nat) : option nat :=
  if bool_decide (sub `prefix_of` s) then Some i
  else match s with
       | [] => None
       | _ :: s' => find sub s' (S i)
       end.

(** [s.index(sub, start)]; [None] for [ValueError]. *)
Definition index (s sub : list ascii) (start : nat) : option nat :=
  if (start <=? length s)%nat then find sub (drop start s) start else None.

(** The [while True] loop, [fuel] rounds of it; [None] when they do not
    suffice. *)
Fixpoint boundaries_loop (fuel : nat) (orig_text begin end_ : list ascii)
    (stop : nat) (boundaries : list (nat * nat)) : option (list (nat * nat)) :=
  match fuel with
  | O => None
  | S fuel' =>
      match index orig_text begin stop with
      | None => Some boundaries
      | Some start =>
          match index orig_text end_ start with
          | None => Some boundaries
          | Some stop' =>
              boundaries_loop fuel' orig_text begin end_ stop'
                (boundaries ++ [(start, stop')])
          end
      end
  end.

(** The body of the [for] loop over [reversed(boundaries)]. *)
Definition replace_region (begin text new_text : list ascii) (boundary : nat * nat)
  : list ascii :=
  take boundary.1 new_text ++ begin ++ text ++ drop boundary.2 new_text.

(** [begin] and [end] as the loops use them. *)
Definition markers (specializer : option (list ascii)) (begin end_ : list ascii)
  : list ascii * list ascii :=
  let newline := ["010"%char] in
  match specializer with
  | Some (c :: specializer') =>
      let specializer := c :: specializer' in
      (begin ++ [":"%char; " "%char] ++ specializer ++ newline,
       end_ ++ [":"%char; " "%char] ++ specializer ++ newline)
  | _ => (begin ++ newline, end_ ++ newline)
  end.

(** [new_text], from [orig_text]; the loop is given one round more than
    [orig_text] has characters. *)
Definition new_text_of (orig_text text begin end_ : list ascii) : option (list ascii) :=
  match boundaries_loop (S (length orig_text)) orig_text begin end_ 0 [] with
  | Some boundaries =>
      Some (foldl (replace_region begin text) orig_text (reverse boundaries))
  | None => None
  end.

Definition default_begin : list ascii :=
  String.list_ascii_of_string "# Begin auto-generated code".

Definition default_end : list ascii :=
  String.list_ascii_of_string "# End auto-generated code".

(** [f.read()] on a file opened in text mode: universal newlines turn a
    carriage return, with the line feed after it if there is one, into a line
    feed. *)
Fixpoint universal_newlines (content : list ascii) : list ascii :=
  match content with
  | [] => []
  | c :: rest =>
      if Ascii.eqb c "013" then
        match rest with
        | c' :: rest' =>
            if Ascii.eqb c' "010" then "010"%char :: universal_newlines rest'
            else "010"%char :: universal_newlines rest
        | [] => ["010"%char]
        end
      else c :: universal_newlines rest
  end.

(** The files by their names and contents.  [black filename files] is the
    run of the command [black filename]: whether it exits with status zero,
    and the files it leaves; nothing is assumed of it.  Line feeds are
    written as they are ([os.linesep] of POSIX).  The result is [None] when
    the search loop does not end. *)
Definition _autogenerate_code
    (black : string -> gmap string (list ascii) -> bool * gmap string (list ascii))
    (files : gmap string (list ascii)) (filename : string) (text : list ascii)
    (specializer : option (list ascii)) (begin end_ : list ascii)
  : option (outcome unit * gmap string (list ascii)) :=
  match files !! filename with
  | None => Some (Throw FileNotFoundError, files)
  | Some content =>
      let orig_text := universal_newlines content in
      let '(begin, end_) := markers specializer begin end_ in
      match new_text_of orig_text text begin end_ with
      | None => None
      | Some new_text =>
          let '(ok, files) := black filename (<[filename:=new_text]> files) in
          Some (if ok : bool then Return () else Throw CalledProcessError, files)
      end
  end.

(** What stays of [orig_text] from [offset] on when each region of
    [boundaries] is replaced by [begin] and [text]. *)
Fixpoint splice (begin text orig_text : list ascii) (offset : nat)
    (boundaries : list (nat * nat)) : list ascii :=
  match boundaries with
  | [] => drop offset orig_text
  | (start, stop) :: boundaries' =>
      take (start - offset) (drop offset orig_text) ++ begin ++ text
      ++ splice begin text orig_text stop boundaries'
  end.

(** [boundaries] are the regions of [orig_text] from [offset] on: each goes
    from the first [begin] at or after the end of the one before to the first
    [end] at or after that [begin], and after the last one no [begin] is
    followed by an [end]. *)
Fixpoint regions (begin end_ orig_text : list ascii) (offset : nat)
    (boundaries : list (nat * nat)) : Prop :=
  match boundaries with
  | [] =>
      forall start stop,
        (offset <= start <= stop)%nat -> (stop <= length orig_text)%nat ->
        begin `prefix_of` drop start orig_text ->
        ~ end_ `prefix_of` drop stop orig_text
  | (start, stop) :: boundaries' =>
      (offset <= start <= stop)%nat /\ (stop <= length orig_text)%nat
      /\ begin `prefix_of` drop start orig_text
      /\ end_ `prefix_of` drop stop orig_text
      /\ (forall j, (offset <= j < start)%nat -> ~ begin `prefix_of` drop j orig_text)
      /\ (forall j, (start <= j < stop)%nat -> ~ end_ `prefix_of` drop j orig_text)
      /\ regions begin end_ orig_text stop boundaries'
  end.

End Utils.

(** ** The docstring's examples *)

Example normalize_chunks_doc1 :
  normalize_chunks (PyInt 10) [10; 20] = Ok [[10]; [10; 10]].
Proof. reflexivity. Qed.

Example normalize_chunks_doc2 :
  normalize_chunks (PySeq KTuple [PyInt 10; PyInt 10]) [10; 20]
  = Ok [[10]; [10; 10]].
Proof. reflexivity. Qed.

Example normalize_chunks_doc3 :
  normalize_chunks (PySeq KList [PyNone; PySeq KTuple [PyInt 5; PyInt 15]]) [10; 20]
  = Ok [[10]; [5; 15]].
Proof. reflexivity. Qed.

Example normalize_chunks_doc4 :
  normalize_chunks (PySeq KTuple [PyInt 5; PySeq KTuple [PyInt 5; PyNone]]) [10; 20]
  = Ok [[5; 5]; [5; 15]].
Proof. reflexivity. Qed.

(** ** The error monad *)

Lemma bind_Ok {A B} (r : result A) (k : A -> result B) (b : B) :
  bind r k = Ok b -> exists a, r = Ok a /\ k a = Ok b.
Proof. destruct r as [a|e]; simpl; [eauto | discriminate]. Qed.

Lemma is_ok_true {A} (r : result A) : is_ok r = true -> exists a, r = Ok a.
Proof. destruct r; simpl; [eauto | discriminate]. Qed.

(** ** Sums *)

Lemma fold_left_add (l : list Z) (a : Z) : fold_left Z.add l a = a + py_sum l.
Proof.
  unfold py_sum. revert a.
  induction l as [|x l IH]; intros a; cbn [fold_left]; [lia|].
  rewrite (IH (a + x)), (IH (0 + x)). lia.
Qed.

Lemma py_sum_nil : py_sum [] = 0.
Proof. reflexivity. Qed.

Lemma py_sum_cons (x : Z) (l : list Z) : py_sum (x :: l) = x + py_sum l.
Proof. unfold py_sum at 1. simpl. apply fold_left_add. Qed.

Lemma py_sum_app (l k : list Z) : py_sum (l ++ k) = py_sum l + py_sum k.
Proof.
  induction l as [|x l IH]; simpl; [rewrite py_sum_nil; lia|].
  rewrite !py_sum_cons, IH. lia.
Qed.

Lemma py_sum_replicate (n : nat) (c : Z) : py_sum (replicate n c) = Z.of_nat n * c.
Proof.
  induction n as [|n IH]; [reflexivity|].
  cbn [replicate]. rewrite py_sum_cons, IH. lia.
Qed.

Lemma py_sum_insert (l : list Z) (i : nat) (old x : Z) :
  l !! i = Some old -> py_sum (<[i:=x]> l) = py_sum l - old + x.
Proof.
  revert i. induction l as [|y l IH]; intros [|i] H; simpl in *; try discriminate.
  - injection H as ->. rewrite !py_sum_cons. lia.
  - rewrite !py_sum_cons, (IH i H). lia.
Qed.

(** ** The loop over the dimensions *)

Lemma normalize_chunks_unfold (chunks : pyval) (shape : list Z) (i : nat) (chunk : pyval) :
  specs_of chunks shape !! i = Some chunk ->
  normalize_chunks chunks shape =
    if (length (specs_of chunks shape) =? length shape)%nat
    then for_dims shape (specs_of chunks shape)
    else Raise ValueError.
Proof.
  unfold normalize_chunks, specs_of.
  destruct (as_sequence chunks shape) as [v|e]; simpl; [|discriminate].
  destruct v; simpl; try discriminate.
  intros _. now destruct (_ =? _)%nat.
Qed.

Lemma for_dims_lookup (shape : list Z) :
  forall (specs : list pyval) res i size chunk,
    for_dims shape specs = Ok res ->
    shape !! i = Some size -> specs !! i = Some chunk ->
    exists part, normalize_dim size chunk = Ok part /\ res !! i = Some part.
Proof.
  induction shape as [|s shape IH]; intros [|c specs] res i size chunk Hf Hs Hc;
    try discriminate.
  cbn [for_dims] in Hf.
  apply bind_Ok in Hf as (p & Hp & Hf).
  apply bind_Ok in Hf as (r & Hr & Hf).
  injection Hf as <-.
  destruct i as [|i]; simpl in *.
  - injection Hs as <-. injection Hc as <-. eauto.
  - eauto.
Qed.

Lemma for_dims_raise (shape : list Z) :
  forall (specs : list pyval) i size chunk e,
    is_ok (for_dims (take i shape) (take i specs)) = true ->
    shape !! i = Some size -> specs !! i = Some chunk ->
    normalize_dim size chunk = Raise e ->
    for_dims shape specs = Raise e.
Proof.
  induction shape as [|s shape IH]; intros [|c specs] i size chunk e Hok Hs Hc He;
    try discriminate.
  destruct i as [|i]; simpl in *.
  - injection Hs as <-. injection Hc as <-. now rewrite He.
  - destruct (normalize_dim s c) as [p|]; simpl in *; [|discriminate].
    rewrite (IH specs i size chunk e); auto.
    now destruct (for_dims (take i shape) (take i specs)).
Qed.

(** A dimension's result, when the call returns. *)
Lemma normalize_chunks_dimension chunks shape res i size chunk :
  normalize_chunks chunks shape = Ok res ->
  dimension chunks shape i size chunk ->
  exists part, normalize_dim size chunk = Ok part /\ res !! i = Some part.
Proof.
  intros Hres [Hs Hc].
  rewrite (normalize_chunks_unfold _ _ _ _ Hc) in Hres.
  destruct (_ =? _)%nat; [|discriminate].
  eauto using for_dims_lookup.
Qed.

(** A dimension's exception, when the loop gets to it. *)
Lemma normalize_chunks_raise chunks shape i size chunk e :
  dimension chunks shape i size chunk ->
  reached chunks shape i = true ->
  normalize_dim size chunk = Raise e ->
  normalize_chunks chunks shape = Raise e.
Proof.
  intros [Hs Hc] Hr He. unfold reached in Hr.
  apply andb_true_iff in Hr as [Hlen Hok].
  rewrite (normalize_chunks_unfold _ _ _ _ Hc), Hlen.
  eauto using for_dims_raise.
Qed.

(** ** The loop over a nested spec *)

Lemma nested_loop_none (rest : list pyval) (cur_chunks : list Z) :
  nested_loop (PyNone :: rest) cur_chunks None
  = nested_loop rest (cur_chunks ++ [0]) (Some (length cur_chunks)).
Proof. reflexivity. Qed.

Lemma nested_loop_second_none (rest : list pyval) (cur_chunks : list Z) (i : nat) :
  nested_loop (PyNone :: rest) cur_chunks (Some i) = Raise TypeError.
Proof. reflexivity. Qed.

(** A run of whole numbers is appended as it is, unless one is negative. *)
Lemma nested_loop_wholes (items : list pyval) (vs : list Z) :
  wholes items = Some vs ->
  forall rest cur_chunks none_index,
    nested_loop (items ++ rest) cur_chunks none_index =
      if existsb negative vs then Raise ValueError
      else nested_loop rest (cur_chunks ++ vs) none_index.
Proof.
  unfold wholes. rewrite mapM_Some.
  induction 1 as [|c n items vs Hc _ IH]; intros rest cur ni.
  - simpl. now rewrite app_nil_r.
  - cbn [app nested_loop existsb]. rewrite Hc.
    unfold negative at 1. destruct (n <? 0); simpl; [reflexivity|].
    rewrite IH. now rewrite <- app_assoc.
Qed.

(** Entries that are neither a placeholder nor a negative whole number either
    raise [TypeError] or are appended. *)
Lemma nested_loop_harmless (items : list pyval) :
  existsb is_none items = false ->
  existsb negative_whole items = false ->
  forall rest cur_chunks none_index,
    nested_loop (items ++ rest) cur_chunks none_index = Raise TypeError
    \/ exists vs, nested_loop (items ++ rest) cur_chunks none_index
                  = nested_loop rest (cur_chunks ++ vs) none_index.
Proof.
  induction items as [|c items IH]; intros Hnone Hneg rest cur ni.
  - right. exists []. simpl. now rewrite app_nil_r.
  - cbn [existsb] in Hnone, Hneg.
    apply orb_false_iff in Hnone as [Hc Hnone].
    apply orb_false_iff in Hneg as [Hn Hneg].
    cbn [app nested_loop]. unfold negative_whole, negative in Hn.
    destruct (whole c) as [n|] eqn:Hw.
    + rewrite Hn. simpl.
      destruct (IH Hnone Hneg rest (cur ++ [n]) ni) as [->|[vs ->]]; [now left|].
      right. exists (n :: vs). now rewrite <- app_assoc.
    + left. destruct c; try discriminate; reflexivity.
Qed.

(** One iteration: the entry appended and the new [none_index]. *)
Lemma nested_loop_step c rest cur_chunks none_index cur_chunks' none_index' :
  nested_loop (c :: rest) cur_chunks none_index = Ok (cur_chunks', none_index') ->
  exists c' ni,
    nested_loop rest (cur_chunks ++ [c']) ni = Ok (cur_chunks', none_index')
    /\ ((is_none c = false /\ ni = none_index)
        \/ (is_none c = true /\ c' = 0 /\ none_index = None
            /\ ni = Some (length cur_chunks))).
Proof.
  cbn [nested_loop]. intros Hloop.
  apply bind_Ok in Hloop as ([c' ni] & Hstep & Hloop).
  exists c', ni. split; [exact Hloop|].
  destruct (whole c) as [n|] eqn:Hw.
  - destruct (n <? 0); [discriminate|]. injection Hstep as _ <-.
    left. destruct c; try discriminate; auto.
  - destruct c; try discriminate. destruct none_index; [discriminate|].
    injection Hstep as <- <-. right. auto.
Qed.

(** Once set, [none_index] stays. *)
Lemma nested_loop_keeps_index (items : list pyval) :
  forall cur_chunks i cur_chunks' none_index',
    nested_loop items cur_chunks (Some i) = Ok (cur_chunks', none_index') ->
    none_index' = Some i.
Proof.
  induction items as [|c items IH]; intros cur i cur' ni' Hloop.
  - now injection Hloop as _ <-.
  - apply nested_loop_step in Hloop as (c' & ni & Hloop & [[_ ->]|(_ & _ & [=] & _)]).
    eauto.
Qed.

(** [none_index] is the position of a [0] entry. *)
Lemma nested_loop_index (items : list pyval) :
  forall cur_chunks none_index cur_chunks' none_index',
    nested_loop items cur_chunks none_index = Ok (cur_chunks', none_index') ->
    (forall i, none_index = Some i -> cur_chunks !! i = Some 0) ->
    forall i, none_index' = Some i -> cur_chunks' !! i = Some 0.
Proof.
  induction items as [|c items IH]; intros cur ni cur' ni' Hloop Hinv.
  - now injection Hloop as <- <-.
  - apply nested_loop_step in Hloop as (c' & ni1 & Hloop & Hstep).
    apply (IH _ _ _ _ Hloop).
    intros i Hi. destruct Hstep as [[_ ->]|(_ & -> & _ & ->)].
    + apply lookup_app_l_Some; auto.
    + injection Hi as <-. now apply list_lookup_middle.
Qed.

(** It is unset at the end only when no placeholder was met. *)
Lemma nested_loop_no_index (items : list pyval) :
  forall cur_chunks none_index cur_chunks',
    nested_loop items cur_chunks none_index = Ok (cur_chunks', None) ->
    existsb is_none items = false.
Proof.
  induction items as [|c items IH]; intros cur ni cur' Hloop; [reflexivity|].
  apply nested_loop_step in Hloop as (c' & ni1 & Hloop & Hstep).
  cbn [existsb]. destruct Hstep as [[-> _]|(_ & _ & _ & ->)].
  - simpl. eauto.
  - now apply nested_loop_keeps_index in Hloop.
Qed.

(** ** One dimension *)


Lemma max_list_len_bounds : 0 <= max_list_len <= maxsize.
Proof. split; vm_compute; discriminate. Qed.

Lemma py_repeat_Ok (x n : Z) (l : list Z) :
  py_repeat x n = Ok l -> l = replicate (Z.to_nat n) x.
Proof.
  unfold py_repeat. destruct (_ || _); [discriminate|].
  destruct (_ <? _); [discriminate|]. now intros [= <-].
Qed.

Lemma py_repeat_fits (x n : Z) :
  - maxsize - 1 <= n <= max_list_len ->
  py_repeat x n = Ok (replicate (Z.to_nat n) x).
Proof.
  intros Hn. pose proof max_list_len_bounds. unfold py_repeat.
  destruct (Z.ltb_spec n (- maxsize - 1)); [lia|].
  destruct (Z.ltb_spec maxsize n); [lia|].
  now destruct (Z.ltb_spec max_list_len n); [lia|].
Qed.

Lemma normalize_dim_whole (size : Z) (chunk : pyval) (c : Z) :
  whole chunk = Some c ->
  normalize_dim size chunk =
    if c <? 0 then Raise ValueError
    else if c =? 0 then Raise ZeroDivisionError
    else (cur_chunks <- py_repeat c (size / c) ;;
          Ok (cur_chunks ++ (if size mod c =? 0 then [] else [size mod c]))).
Proof.
  intros Hc. unfold normalize_dim.
  destruct chunk; try discriminate; rewrite Hc;
    unfold py_divmod; destruct (c <? 0), (c =? 0); reflexivity.
Qed.

(** A whole-number chunk size that is accepted. *)
Lemma normalize_dim_whole_Ok (size : Z) (chunk : pyval) (c : Z) (part : list Z) :
  whole chunk = Some c ->
  normalize_dim size chunk = Ok part ->
  0 < c
  /\ part = replicate (Z.to_nat (size / c)) c
            ++ (if size mod c =? 0 then [] else [size mod c]).
Proof.
  intros Hc Hpart. rewrite (normalize_dim_whole _ _ _ Hc) in Hpart.
  destruct (Z.ltb_spec c 0); [discriminate|].
  destruct (Z.eqb_spec c 0); [discriminate|].
  apply bind_Ok in Hpart as (cur & Hcur & Hpart).
  apply py_repeat_Ok in Hcur as ->. injection Hpart as <-.
  split; [lia | reflexivity].
Qed.

(** A positive one whose number of chunks fits a list. *)
Lemma normalize_dim_fits (size : Z) (chunk : pyval) (c : Z) :
  whole chunk = Some c -> 0 < c ->
  - maxsize - 1 <= size / c <= max_list_len ->
  normalize_dim size chunk
  = Ok (replicate (Z.to_nat (size / c)) c
        ++ (if size mod c =? 0 then [] else [size mod c])).
Proof.
  intros Hc Hpos Hfits. rewrite (normalize_dim_whole _ _ _ Hc).
  destruct (Z.ltb_spec c 0); [lia|]. destruct (Z.eqb_spec c 0); [lia|].
  now rewrite (py_repeat_fits _ _ Hfits).
Qed.

Lemma normalize_dim_seq (size : Z) (k : seq_kind) (items : list pyval) :
  normalize_dim size (PySeq k items) =
    (final <- nested_loop items [] None ;;
     match snd final with
     | Some i =>
         if size - py_sum (fst final) <? 0 then Raise ValueError
         else Ok (<[i:=size - py_sum (fst final)]> (fst final))
     | None => Ok (fst final)
     end).
Proof.
  unfold normalize_dim. cbn [whole].
  now destruct (nested_loop items [] None) as [[cur ni]|].
Qed.

(** A nested spec with one placeholder among whole numbers. *)
Lemma normalize_dim_placeholder size k pre post vpre vpost :
  wholes pre = Some vpre -> wholes post = Some vpost ->
  normalize_dim size (PySeq k (pre ++ PyNone :: post)) =
    if existsb negative (vpre ++ vpost) || (size - py_sum (vpre ++ vpost) <? 0)
    then Raise ValueError
    else Ok (vpre ++ (size - py_sum (vpre ++ vpost)) :: vpost).
Proof.
  intros Hpre Hpost. rewrite normalize_dim_seq.
  rewrite (nested_loop_wholes _ _ Hpre), existsb_app.
  destruct (existsb negative vpre); [reflexivity|].
  rewrite nested_loop_none, <- (app_nil_r post).
  rewrite (nested_loop_wholes _ _ Hpost).
  destruct (existsb negative vpost); [reflexivity|].
  cbn [nested_loop bind fst snd app orb].
  rewrite <- app_assoc. cbn [app].
  replace (py_sum (vpre ++ 0 :: vpost)) with (py_sum (vpre ++ vpost))
    by (rewrite !py_sum_app, py_sum_cons; lia).
  destruct (_ <? 0); [reflexivity|].
  now rewrite insert_app_r_alt, Nat.sub_diag by lia.
Qed.

(** A nested spec with a second placeholder, no negative whole number before
    it. *)
Lemma normalize_dim_two_placeholders size k pre mid post :
  existsb is_none (pre ++ mid) = false ->
  existsb negative_whole (pre ++ mid) = false ->
  normalize_dim size (PySeq k (pre ++ PyNone :: mid ++ PyNone :: post))
  = Raise TypeError.
Proof.
  rewrite !existsb_app, !orb_false_iff. intros [Hn1 Hn2] [Hw1 Hw2].
  rewrite normalize_dim_seq.
  destruct (nested_loop_harmless pre Hn1 Hw1 (PyNone :: mid ++ PyNone :: post) [] None)
    as [->|[vs ->]]; [reflexivity|].
  rewrite nested_loop_none.
  destruct (nested_loop_harmless mid Hn2 Hw2 (PyNone :: post)
              (([] ++ vs) ++ [0]) (Some (length ([] ++ vs))))
    as [->|[ws ->]]; reflexivity.
Qed.

(** A numpy array of integer dtype. *)
Lemma normalize_dim_int_array (size : Z) (dims : list nat) (flat : list Z) :
  normalize_dim size (PyIntArray dims flat) =
    if negb (length dims =? 1)%nat then Raise TypeError
    else if existsb negative flat then Raise ValueError
    else Ok flat.
Proof. reflexivity. Qed.

(** A nested spec of whole numbers only. *)
Lemma normalize_dim_explicit (size : Z) (k : seq_kind) (items : list pyval) (vs : list Z) :
  wholes items = Some vs ->
  normalize_dim size (PySeq k items) =
    if existsb negative vs then Raise ValueError else Ok vs.
Proof.
  intros Hvs. rewrite normalize_dim_seq, <- (app_nil_r items).
  rewrite (nested_loop_wholes _ _ Hvs).
  now destruct (existsb negative vs).
Qed.

(** Where the partition is computed from the size, it sums to it. *)
Lemma normalize_dim_sum (size : Z) (chunk : pyval) (part : list Z) :
  sized_from_dimension chunk = true -> 0 <= size ->
  normalize_dim size chunk = Ok part ->
  py_sum part = size.
Proof.
  intros Hkind Hsize Hpart.
  destruct (whole chunk) as [c|] eqn:Hc.
  - destruct (normalize_dim_whole_Ok _ _ _ _ Hc Hpart) as [Hpos ->].
    rewrite py_sum_app, py_sum_replicate, Z2Nat.id by (apply Z.div_pos; lia).
    pose proof (Z.div_mod size c ltac:(lia)).
    destruct (Z.eqb_spec (size mod c) 0) as [E|E].
    + rewrite py_sum_nil. lia.
    + rewrite py_sum_cons, py_sum_nil. lia.
  - destruct chunk as [| n | f | | k items | dims flat | dims flat | ];
      try (cbn [sized_from_dimension] in Hkind; rewrite Hc in Hkind; discriminate).
    + injection Hpart as <-. rewrite py_sum_cons, py_sum_nil. lia.
    + cbn [sized_from_dimension] in Hkind.
      rewrite normalize_dim_seq in Hpart.
      apply bind_Ok in Hpart as ([cur ni] & Hloop & Hpart). cbn [fst snd] in Hpart.
      destruct ni as [i|].
      * destruct (_ <? 0); [discriminate|]. injection Hpart as <-.
        rewrite (py_sum_insert _ _ 0); [lia|].
        eapply nested_loop_index; eauto. discriminate.
      * apply nested_loop_no_index in Hloop. congruence.
Qed.

(** ** [tolist()] of a 1-d array *)

Lemma blocks_scalars (flat : list pyval) :
  map (tolist []) (blocks (length flat) 1 flat) = flat.
Proof.
  induction flat as [|x flat IH]; [reflexivity|].
  cbn [length blocks map take drop]. rewrite drop_0, IH. reflexivity.
Qed.

(** It is the list of the array's entries, in order. *)
Lemma tolist_flat (flat : list pyval) :
  tolist [length flat] flat = PySeq KList flat.
Proof. cbn [tolist foldr]. now rewrite blocks_scalars. Qed.

(** A negative whole-number chunk size is refused with [ValueError]. *)
Lemma normalize_chunks_negative_chunksize chunks shape i size chunk c :
  dimension chunks shape i size chunk ->
  whole chunk = Some c -> c < 0 ->
  reached chunks shape i = true ->
  normalize_chunks chunks shape = Raise ValueError.
Proof.
  intros Hdim Hc Hneg Hreach.
  apply (normalize_chunks_raise _ _ _ _ _ _ Hdim Hreach).
  rewrite (normalize_dim_whole _ _ _ Hc).
  now destruct (Z.ltb_spec c 0); [|lia].
Qed.

(** ** The partitions and the shape *)

(** C1, as stated, fails: the explicit list [[(1, 2)]] is accepted for the
    shape [(10,)] and returned as it is, and its entries sum to 3. *)
Lemma normalize_chunks_sum_counterexample :
  normalize_chunks (PySeq KList [PySeq KTuple [PyInt 1; PyInt 2]]) [10]
  = Ok [[1; 2]]
  /\ py_sum [1; 2] <> 10.
Proof. split; [reflexivity | discriminate]. Qed.

(** C1, amended: in a call that returns, the partition of every dimension of
    non-negative size whose spec is absent, a whole-number chunk size or a
    nested sequence with a placeholder sums to the dimension's size. *)
Theorem normalize_chunks_sum chunks shape res i size chunk :
  normalize_chunks chunks shape = Ok res ->
  dimension chunks shape i size chunk ->
  sized_from_dimension chunk = true ->
  0 <= size ->
  exists part, res !! i = Some part /\ py_sum part = size.
Proof.
  intros Hres Hdim Hkind Hsize.
  destruct (normalize_chunks_dimension _ _ _ _ _ _ Hres Hdim) as (part & Hpart & Hi).
  exists part. split; [exact Hi|].
  exact (normalize_dim_sum _ _ _ Hkind Hsize Hpart).
Qed.

Lemma normalize_chunks_sum_witness :
  exists part, [[5; 5]; [5; 15]] !! 1%nat = Some part /\ py_sum part = 20.
Proof.
  apply (normalize_chunks_sum
           (PySeq KTuple [PyInt 5; PySeq KTuple [PyInt 5; PyNone]]) [10; 20]
           [[5; 5]; [5; 15]] 1 20 (PySeq KTuple [PyInt 5; PyNone])).
  - reflexivity.
  - split; reflexivity.
  - reflexivity.
  - lia.
Defined.

(** ** Whole-number chunk sizes *)

(** C2: a chunk size of zero passes the guard [chunk < 0] and reaches
    [divmod(size, 0)]: the call ends in [ZeroDivisionError], not in
    [ValueError]. *)
Theorem normalize_chunks_zero_chunksize :
  normalize_chunks (PyInt 0) [10] = Raise ZeroDivisionError
  /\ forall size, normalize_dim size (PyInt 0) = Raise ZeroDivisionError.
Proof. split; reflexivity. Qed.

(** C4: a whole-number chunk size [c > 0] gives [floor(size / c)] chunks of
    size [c], then one chunk [size mod c] exactly when that is not zero: this
    is the dimension's partition whenever the call returns, and the list is
    built whenever [floor(size / c)] is a count [[c] * div] builds a list for
    (beyond it line 166 raises); and [normalize_chunks(10, (10, 20))] is
    [[(10,), (10, 10)]]. *)
Theorem normalize_chunks_chunksize :
  (forall chunks shape i size chunk c,
      dimension chunks shape i size chunk ->
      whole chunk = Some c -> 0 < c ->
      let part := replicate (Z.to_nat (size / c)) c
                  ++ (if size mod c =? 0 then [] else [size mod c]) in
      (- maxsize - 1 <= size / c <= max_list_len ->
       normalize_dim size chunk = Ok part)
      /\ forall res, normalize_chunks chunks shape = Ok res -> res !! i = Some part)
  /\ normalize_chunks (PyInt 10) [10; 20] = Ok [[10]; [10; 10]].
Proof.
  split; [|reflexivity].
  intros chunks shape i size chunk c Hdim Hc Hpos part. split.
  - intros Hfits. now apply normalize_dim_fits.
  - intros res Hres.
    destruct (normalize_chunks_dimension _ _ _ _ _ _ Hres Hdim) as (p & Hp & Hi).
    destruct (normalize_dim_whole_Ok _ _ _ _ Hc Hp) as [_ Hp'].
    now rewrite Hi, Hp'.
Qed.

Lemma normalize_chunks_chunksize_witness :
  normalize_dim 10 (PyInt 3) = Ok [3; 3; 3; 1]
  /\ forall res,
      normalize_chunks (PySeq KTuple [PyInt 5; PyInt 3]) [20; 10] = Ok res ->
      res !! 1%nat = Some [3; 3; 3; 1].
Proof.
  destruct (proj1 normalize_chunks_chunksize
              (PySeq KTuple [PyInt 5; PyInt 3]) [20; 10] 1%nat 10 (PyInt 3) 3)
    as [Hdim Hres].
  - split; reflexivity.
  - reflexivity.
  - lia.
  - split; [|exact Hres].
    apply Hdim. split; vm_compute; discriminate.
Defined.

(** Beyond those counts line 166 raises: the count no longer fits an index,
    or the list is too long to be allocated. *)
Example normalize_chunks_overflow :
  normalize_chunks (PyInt 1) [2 ^ 63] = Raise OverflowError.
Proof. vm_compute. reflexivity. Qed.

Example normalize_chunks_too_long :
  normalize_chunks (PyInt 1) [2 ^ 62] = Raise MemoryError.
Proof. vm_compute. reflexivity. Qed.

(** C5: a scalar [chunks] gives what the tuple repeating it once per
    dimension gives, the exception included. *)
Theorem normalize_chunks_broadcast (c : pyval) (shape : list Z) :
  is_number c = true ->
  normalize_chunks c shape
  = normalize_chunks (PySeq KTuple (replicate (length shape) c)) shape.
Proof. destruct c; intros Hc; try discriminate; reflexivity. Qed.

Lemma normalize_chunks_broadcast_witness :
  normalize_chunks (PyInt 10) [10; 20]
  = normalize_chunks (PySeq KTuple (replicate (length [10; 20]) (PyInt 10))) [10; 20].
Proof. apply (normalize_chunks_broadcast (PyInt 10) [10; 20]). reflexivity. Defined.

(** ** Absent specs *)



(** ** Nested specs *)

(** C3: with one placeholder among whole numbers, the placeholder's slot
    holds the dimension's size minus the sum of the other entries; when that
    is negative the call ends in [ValueError]; and
    [normalize_chunks((5, (5, None)), (10, 20))] is [[(5, 5), (5, 15)]]. *)
Theorem normalize_chunks_placeholder :
  (forall chunks shape i size k pre post vpre vpost,
      dimension chunks shape i size (PySeq k (pre ++ PyNone :: post)) ->
      wholes pre = Some vpre -> wholes post = Some vpost ->
      let fill := size - py_sum (vpre ++ vpost) in
      (forall res, normalize_chunks chunks shape = Ok res ->
                   res !! i = Some (vpre ++ fill :: vpost))
      /\ (0 <= fill -> existsb negative (vpre ++ vpost) = false ->
          normalize_dim size (PySeq k (pre ++ PyNone :: post))
          = Ok (vpre ++ fill :: vpost))
      /\ (fill < 0 -> reached chunks shape i = true ->
          normalize_chunks chunks shape = Raise ValueError))
  /\ normalize_chunks (PySeq KTuple [PyInt 5; PySeq KTuple [PyInt 5; PyNone]]) [10; 20]
     = Ok [[5; 5]; [5; 15]].
Proof.
  split; [|reflexivity].
  intros chunks shape i size k pre post vpre vpost Hdim Hpre Hpost fill.
  pose proof (normalize_dim_placeholder size k _ _ _ _ Hpre Hpost) as Hd.
  fold fill in Hd. repeat split.
  - intros res Hres.
    destruct (normalize_chunks_dimension _ _ _ _ _ _ Hres Hdim) as (p & Hp & Hi).
    rewrite Hd in Hp. destruct (_ || _); [discriminate|]. congruence.
  - intros Hfill Hneg. rewrite Hd, Hneg.
    now destruct (Z.ltb_spec fill 0); [lia|].
  - intros Hfill Hreach.
    apply (normalize_chunks_raise _ _ _ _ _ _ Hdim Hreach).
    rewrite Hd. destruct (Z.ltb_spec fill 0); [|lia]. now rewrite orb_true_r.
Qed.

Lemma normalize_chunks_placeholder_witness :
  (forall res,
      normalize_chunks (PySeq KTuple [PyInt 5; PySeq KTuple [PyInt 5; PyNone; PyInt 2]])
        [10; 20] = Ok res ->
      res !! 1%nat = Some [5; 13; 2])
  /\ normalize_dim 20 (PySeq KTuple [PyInt 5; PyNone; PyInt 2]) = Ok [5; 13; 2]
  /\ normalize_chunks (PySeq KList [PyNone; PySeq KList [PyInt 15; PyNone; PyInt 6]])
       [10; 20] = Raise ValueError.
Proof.
  split; [|split].
  - apply (proj1 normalize_chunks_placeholder
             (PySeq KTuple [PyInt 5; PySeq KTuple [PyInt 5; PyNone; PyInt 2]])
             [10; 20] 1%nat 20 KTuple [PyInt 5] [PyInt 2] [5] [2]);
      [split|..]; reflexivity.
  - apply (proj1 normalize_chunks_placeholder
             (PySeq KTuple [PyInt 5; PySeq KTuple [PyInt 5; PyNone; PyInt 2]])
             [10; 20] 1%nat 20 KTuple [PyInt 5] [PyInt 2] [5] [2]);
      [split|..]; first [reflexivity | vm_compute; discriminate].
  - apply (proj1 normalize_chunks_placeholder
             (PySeq KList [PyNone; PySeq KList [PyInt 15; PyNone; PyInt 6]])
             [10; 20] 1%nat 20 KList [PyInt 15] [PyInt 6] [15] [6]);
      [split|..]; reflexivity.
Defined.

(** C6, as stated, fails: in [(None, -1, None)] the negative entry is met
    before the second placeholder, and the call ends in [ValueError]. *)
Lemma normalize_chunks_two_placeholders_counterexample :
  normalize_chunks (PySeq KList [PySeq KTuple [PyNone; PyInt (-1); PyNone]]) [10]
  = Raise ValueError
  /\ normalize_chunks (PySeq KList [PySeq KTuple [PyNone; PyInt (-1); PyNone]]) [10]
     <> Raise TypeError.
Proof. split; [reflexivity | discriminate]. Qed.

(** C6, amended: a nested spec with a second placeholder ends the call in
    [TypeError] when no negative whole number comes before that placeholder;
    when the entries before it are whole numbers and one of them is negative,
    the call ends in [ValueError]. *)
Theorem normalize_chunks_two_placeholders chunks shape i size k pre mid post :
  dimension chunks shape i size (PySeq k (pre ++ PyNone :: mid ++ PyNone :: post)) ->
  existsb is_none (pre ++ mid) = false ->
  reached chunks shape i = true ->
  (existsb negative_whole (pre ++ mid) = false ->
   normalize_chunks chunks shape = Raise TypeError)
  /\ (forall vpre vmid,
         wholes pre = Some vpre -> wholes mid = Some vmid ->
         existsb negative (vpre ++ vmid) = true ->
         normalize_chunks chunks shape = Raise ValueError).
Proof.
  intros Hdim Hnone Hreach. split.
  - intros Hneg. apply (normalize_chunks_raise _ _ _ _ _ _ Hdim Hreach).
    now apply normalize_dim_two_placeholders.
  - intros vpre vmid Hpre Hmid Hneg.
    apply (normalize_chunks_raise _ _ _ _ _ _ Hdim Hreach).
    rewrite normalize_dim_seq, (nested_loop_wholes _ _ Hpre).
    rewrite existsb_app in Hneg.
    destruct (existsb negative vpre); [reflexivity|].
    rewrite nested_loop_none, (nested_loop_wholes _ _ Hmid).
    cbn [orb] in Hneg. now rewrite Hneg.
Qed.

Lemma normalize_chunks_two_placeholders_witness :
  normalize_chunks (PySeq KList [PyInt 5; PySeq KTuple [PyInt 1; PyNone; PyInt 2; PyNone]])
    [10; 20] = Raise TypeError
  /\ normalize_chunks (PySeq KList [PySeq KTuple [PyNone; PyInt (-1); PyNone]]) [10]
     = Raise ValueError.
Proof.
  split.
  - apply (normalize_chunks_two_placeholders
             (PySeq KList [PyInt 5; PySeq KTuple [PyInt 1; PyNone; PyInt 2; PyNone]])
             [10; 20] 1%nat 20 KTuple [PyInt 1] [PyInt 2] []);
      [split|..]; reflexivity.
  - apply (proj2 (normalize_chunks_two_placeholders
                    (PySeq KList [PySeq KTuple [PyNone; PyInt (-1); PyNone]])
                    [10] 0%nat 10 KTuple [] [PyInt (-1)] []
                    (conj eq_refl eq_refl) eq_refl eq_refl) [] [-1]);
      reflexivity.
Defined.

(** C9: a list or tuple of non-negative whole numbers, without placeholder,
    is returned entry by entry as integers whatever the dimension's size is:
    sums below and above the size are accepted. *)
Theorem normalize_chunks_explicit :
  (forall chunks shape i size k items vs,
      dimension chunks shape i size (PySeq k items) ->
      wholes items = Some vs -> existsb negative vs = false ->
      normalize_dim size (PySeq k items) = Ok vs
      /\ normalize_chunks (PySeq KList [PySeq k items]) [size] = Ok [vs]
      /\ forall res, normalize_chunks chunks shape = Ok res -> res !! i = Some vs)
  /\ normalize_chunks (PySeq KList [PySeq KTuple [PyInt 1; PyInt 2]]) [10] = Ok [[1; 2]]
  /\ normalize_chunks (PySeq KList [PySeq KTuple [PyInt 20; PyInt 5]]) [10] = Ok [[20; 5]].
Proof.
  split; [|split; reflexivity].
  intros chunks shape i size k items vs Hdim Hvs Hneg.
  assert (Hd : normalize_dim size (PySeq k items) = Ok vs)
    by now rewrite (normalize_dim_explicit _ _ _ _ Hvs), Hneg.
  split; [exact Hd|]. split.
  - unfold normalize_chunks. cbn [as_sequence py_len py_items bind length Nat.eqb negb for_dims].
    now rewrite Hd.
  - intros res Hres.
    destruct (normalize_chunks_dimension _ _ _ _ _ _ Hres Hdim) as (p & Hp & Hi).
    congruence.
Qed.

Lemma normalize_chunks_explicit_witness :
  normalize_dim 20 (PySeq KTuple [PyInt 5; PyFloat (S754_finite false 3 1)]) = Ok [5; 6]
  /\ normalize_chunks
       (PySeq KList [PySeq KTuple [PyInt 5; PyFloat (S754_finite false 3 1)]]) [20]
     = Ok [[5; 6]]
  /\ forall res,
      normalize_chunks
        (PySeq KList [PyNone; PySeq KTuple [PyInt 5; PyFloat (S754_finite false 3 1)]])
        [10; 20] = Ok res ->
      res !! 1%nat = Some [5; 6].
Proof.
  apply (proj1 normalize_chunks_explicit
           (PySeq KList [PyNone; PySeq KTuple [PyInt 5; PyFloat (S754_finite false 3 1)]])
           [10; 20] 1%nat 20 KTuple [PyInt 5; PyFloat (S754_finite false 3 1)] [5; 6]);
    [split|..]; reflexivity.
Defined.

(** ** numpy arrays *)

(** C8: an array that is not of integer dtype, or not 1-d, ends the call in
    [TypeError]; a 1-d integer array with a negative entry ends it in
    [ValueError]; any other 1-d integer array is the dimension's partition,
    entry by entry. *)
Theorem normalize_chunks_array chunks shape i size dims :
  (forall flat,
      dimension chunks shape i size (PyArray dims flat) ->
      reached chunks shape i = true ->
      normalize_chunks chunks shape = Raise TypeError)
  /\ (forall flat,
         dimension chunks shape i size (PyIntArray dims flat) ->
         reached chunks shape i = true ->
         length dims <> 1%nat ->
         normalize_chunks chunks shape = Raise TypeError)
  /\ (forall flat,
         dimension chunks shape i size (PyIntArray dims flat) ->
         reached chunks shape i = true ->
         length dims = 1%nat -> existsb negative flat = true ->
         normalize_chunks chunks shape = Raise ValueError)
  /\ (forall flat,
         dimension chunks shape i size (PyIntArray dims flat) ->
         length dims = 1%nat -> existsb negative flat = false ->
         normalize_dim size (PyIntArray dims flat) = Ok flat
         /\ forall res, normalize_chunks chunks shape = Ok res -> res !! i = Some flat).
Proof.
  split; [|split; [|split]].
  - intros flat Hdim Hreach.
    now apply (normalize_chunks_raise _ _ _ _ _ _ Hdim Hreach).
  - intros flat Hdim Hreach Hnd.
    apply (normalize_chunks_raise _ _ _ _ _ _ Hdim Hreach).
    rewrite normalize_dim_int_array.
    now destruct (Nat.eqb_spec (length dims) 1).
  - intros flat Hdim Hreach Hnd Hneg.
    apply (normalize_chunks_raise _ _ _ _ _ _ Hdim Hreach).
    now rewrite normalize_dim_int_array, Hnd, Hneg.
  - intros flat Hdim Hnd Hneg.
    assert (Hd : normalize_dim size (PyIntArray dims flat) = Ok flat)
      by now rewrite normalize_dim_int_array, Hnd, Hneg.
    split; [exact Hd|].
    intros res Hres.
    destruct (normalize_chunks_dimension _ _ _ _ _ _ Hres Hdim) as (p & Hp & Hi).
    congruence.
Qed.

Lemma normalize_chunks_array_witness :
  normalize_chunks (PySeq KList [PyNone; PyArray [2%nat] [PyFloat (S754_zero false); PyNone]])
    [10; 20] = Raise TypeError
  /\ normalize_chunks (PySeq KList [PyIntArray [1%nat; 2%nat] [5; 5]; PyNone]) [10; 20]
     = Raise TypeError
  /\ normalize_chunks (PySeq KList [PyNone; PyIntArray [2%nat] [21; -1]]) [10; 20]
     = Raise ValueError
  /\ (normalize_dim 20 (PyIntArray [2%nat] [5; 15]) = Ok [5; 15]
      /\ forall res,
          normalize_chunks (PySeq KList [PyNone; PyIntArray [2%nat] [5; 15]]) [10; 20]
          = Ok res ->
          res !! 1%nat = Some [5; 15]).
Proof.
  split; [|split; [|split]].
  - apply (proj1 (normalize_chunks_array
                    (PySeq KList [PyNone; PyArray [2%nat] [PyFloat (S754_zero false); PyNone]])
                    [10; 20] 1%nat 20 [2%nat]) [PyFloat (S754_zero false); PyNone]);
      [split|]; reflexivity.
  - apply (proj1 (proj2 (normalize_chunks_array
                           (PySeq KList [PyIntArray [1%nat; 2%nat] [5; 5]; PyNone])
                           [10; 20] 0%nat 10 [1%nat; 2%nat])) [5; 5]);
      [split; reflexivity | reflexivity | discriminate].
  - apply (proj1 (proj2 (proj2 (normalize_chunks_array
                                  (PySeq KList [PyNone; PyIntArray [2%nat] [21; -1]])
                                  [10; 20] 1%nat 20 [2%nat]))) [21; -1]);
      [split|..]; reflexivity.
  - apply (proj2 (proj2 (proj2 (normalize_chunks_array
                                  (PySeq KList [PyNone; PyIntArray [2%nat] [5; 15]])
                                  [10; 20] 1%nat 20 [2%nat]))) [5; 15]);
      [split|..]; reflexivity.
Defined.

(** ** Inverting a mask *)

(** C10: on each of the four variants, [~m] wraps the same object, flips
    [complement] and keeps [structure] and [value]; inverting twice gives back
    the class and the object of [m]. *)
Theorem mask_invert_involution (object : Type) (m : Mask.instance object) :
  Mask.is_variant (Mask.class_of m) = true ->
  exists m',
    Mask.invert m = Ok m'
    /\ Mask.mask m' = Mask.mask m
    /\ Mask.complement m' = negb (Mask.complement m)
    /\ Mask.structure m' = Mask.structure m
    /\ Mask.value m' = Mask.value m
    /\ Mask.invert m' = Ok m.
Proof.
  destruct m as [[] o]; intros Hvariant; try discriminate;
    eexists; (split; [reflexivity|]); repeat split.
Qed.

Lemma mask_invert_involution_witness :
  exists m',
    Mask.invert (Mask.New Mask.ValueMask 7%nat) = Ok m'
    /\ Mask.mask m' = 7%nat
    /\ Mask.complement m' = true
    /\ Mask.structure m' = false
    /\ Mask.value m' = true
    /\ Mask.invert m' = Ok (Mask.New Mask.ValueMask 7%nat).
Proof.
  apply (mask_invert_involution nat (Mask.New Mask.ValueMask 7%nat)). reflexivity.
Defined.

(** ** More on the loop over the dimensions *)

Lemma for_dims_length (shape : list Z) :
  forall (specs : list pyval) res,
    length specs = length shape ->
    for_dims shape specs = Ok res -> length res = length shape.
Proof.
  induction shape as [|s shape IH]; intros [|c specs] res Hlen Hres;
    try discriminate.
  - now injection Hres as <-.
  - cbn [for_dims] in Hres.
    apply bind_Ok in Hres as (p & Hp & Hres).
    apply bind_Ok in Hres as (r & Hr & Hres).
    injection Hres as <-. injection Hlen as Hlen.
    cbn [length]. f_equal. eauto.
Qed.

Lemma for_dims_app (shape1 shape2 : list Z) :
  forall specs1 specs2 : list pyval,
    length specs1 = length shape1 ->
    for_dims (shape1 ++ shape2) (specs1 ++ specs2) =
      (r1 <- for_dims shape1 specs1 ;;
       r2 <- for_dims shape2 specs2 ;;
       Ok (r1 ++ r2)).
Proof.
  induction shape1 as [|s shape1 IH]; intros [|c specs1] specs2 Hlen;
    try discriminate.
  - cbn [app for_dims bind]. now destruct (for_dims shape2 specs2).
  - injection Hlen as Hlen. cbn [app for_dims].
    destruct (normalize_dim s c) as [p|e]; [|reflexivity].
    cbn [bind]. rewrite (IH _ _ Hlen).
    destruct (for_dims shape1 specs1) as [r1|e]; [|reflexivity].
    cbn [bind]. now destruct (for_dims shape2 specs2).
Qed.

(** What a call that returns went through. *)
Lemma normalize_chunks_Ok chunks shape res :
  normalize_chunks chunks shape = Ok res ->
  length (specs_of chunks shape) = length shape
  /\ for_dims shape (specs_of chunks shape) = Ok res.
Proof.
  unfold normalize_chunks, specs_of. intros Hres.
  apply bind_Ok in Hres as (v & -> & Hres).
  apply bind_Ok in Hres as (n & Hn & Hres).
  destruct v; try discriminate. injection Hn as <-. cbn [py_items] in *.
  destruct (Nat.eqb_spec (length items) (length shape)); [auto | discriminate].
Qed.

Lemma normalize_chunks_seq k specs shape :
  length specs = length shape ->
  normalize_chunks (PySeq k specs) shape = for_dims shape specs.
Proof.
  intros Hlen. unfold normalize_chunks. cbn [as_sequence py_len py_items bind].
  now rewrite Hlen, Nat.eqb_refl.
Qed.

(** ** Signs of the chunk sizes *)

Lemma nested_loop_nonnegative (items : list pyval) :
  forall cur_chunks none_index cur_chunks' none_index',
    nested_loop items cur_chunks none_index = Ok (cur_chunks', none_index') ->
    Forall (fun c => 0 <= c) cur_chunks -> Forall (fun c => 0 <= c) cur_chunks'.
Proof.
  induction items as [|c items IH]; intros cur ni cur' ni' Hloop Hcur.
  - now injection Hloop as <- _.
  - cbn [nested_loop] in Hloop.
    apply bind_Ok in Hloop as ([c' ni1] & Hstep & Hloop).
    apply (IH _ _ _ _ Hloop), Forall_app. split; [exact Hcur|].
    constructor; [|constructor].
    destruct (whole c) as [n|].
    + destruct (Z.ltb_spec n 0); [discriminate|]. injection Hstep as <- _. lia.
    + destruct c; try discriminate. destruct ni; [discriminate|].
      injection Hstep as <- _. lia.
Qed.

Lemma existsb_negative_false (l : list Z) :
  existsb negative l = false <-> Forall (fun c => 0 <= c) l.
Proof.
  unfold negative. induction l as [|x l IH]; cbn [existsb].
  - split; [constructor | reflexivity].
  - rewrite orb_false_iff, IH, Forall_cons. destruct (Z.ltb_spec x 0); intuition (lia || discriminate).
Qed.

Lemma normalize_dim_nonnegative (size : Z) (chunk : pyval) (part : list Z) :
  0 <= size ->
  normalize_dim size chunk = Ok part ->
  Forall (fun c => 0 <= c) part.
Proof.
  intros Hsize Hpart.
  destruct (whole chunk) as [c|] eqn:Hc.
  - destruct (normalize_dim_whole_Ok _ _ _ _ Hc Hpart) as [Hpos ->].
    apply Forall_app. split.
    + apply Forall_replicate. lia.
    + pose proof (Z.mod_pos_bound size c ltac:(lia)).
      destruct (_ =? 0); repeat constructor; lia.
  - destruct chunk as [| n | f | | k items | dims flat | dims flat | ];
      try discriminate.
    + injection Hpart as <-. repeat constructor; lia.
    + unfold normalize_dim in Hpart. rewrite Hc in Hpart. discriminate.
    + rewrite normalize_dim_seq in Hpart.
      apply bind_Ok in Hpart as ([cur ni] & Hloop & Hpart). cbn [fst snd] in Hpart.
      apply nested_loop_nonnegative in Hloop; [|constructor].
      destruct ni as [i|]; [|now injection Hpart as <-].
      destruct (Z.ltb_spec (size - py_sum cur) 0); [discriminate|].
      injection Hpart as <-. now apply Forall_insert.
    + rewrite normalize_dim_int_array in Hpart.
      destruct (negb _); [discriminate|].
      destruct (existsb negative flat) eqn:Hneg; [discriminate|].
      injection Hpart as <-. now apply existsb_negative_false.
Qed.

Lemma for_dims_nonnegative (shape : list Z) :
  forall (specs : list pyval) res,
    Forall (fun size => 0 <= size) shape ->
    for_dims shape specs = Ok res ->
    Forall (Forall (fun c => 0 <= c)) res.
Proof.
  induction shape as [|s shape IH]; intros [|c specs] res Hshape Hres;
    try (injection Hres as <-; constructor).
  cbn [for_dims] in Hres.
  apply bind_Ok in Hres as (p & Hp & Hres).
  apply bind_Ok in Hres as (r & Hr & Hres).
  injection Hres as <-. apply Forall_cons in Hshape as [Hs Hshape].
  constructor; eauto using normalize_dim_nonnegative.
Qed.

(** The result of a call, given back as explicit chunks. *)
Lemma for_dims_returned (shape : list Z) :
  forall res : list (list Z),
    length res = length shape ->
    Forall (Forall (fun c => 0 <= c)) res ->
    for_dims shape (map (fun cur_chunks => PySeq KList (map PyInt cur_chunks)) res)
    = Ok res.
Proof.
  induction shape as [|s shape IH]; intros [|p res] Hlen Hres; try discriminate;
    [reflexivity|].
  apply Forall_cons in Hres as [Hp Hres]. injection Hlen as Hlen.
  cbn [map for_dims].
  rewrite (normalize_dim_explicit s KList (map PyInt p) p).
  - apply existsb_negative_false in Hp. rewrite Hp. cbn [bind].
    now rewrite (IH _ Hlen Hres).
  - unfold wholes. apply mapM_Some. clear. induction p; constructor; auto.
Qed.

(** ** The shape of the result *)

(** X1: a call that returns gives one partition per dimension of [shape]. *)
Theorem normalize_chunks_one_per_dimension chunks shape res :
  normalize_chunks chunks shape = Ok res ->
  length res = length shape.
Proof.
  intros Hres. apply normalize_chunks_Ok in Hres as [Hlen Hres].
  eauto using for_dims_length.
Qed.

Lemma normalize_chunks_one_per_dimension_witness :
  length [[5; 5]; [5; 15]] = length [10; 20].
Proof.
  apply (normalize_chunks_one_per_dimension
           (PySeq KTuple [PyInt 5; PySeq KTuple [PyInt 5; PyNone]]) [10; 20]).
  reflexivity.
Defined.

(** X2: over a shape without negative size, no returned chunk size is
    negative. *)
Theorem normalize_chunks_nonnegative chunks shape res :
  Forall (fun size => 0 <= size) shape ->
  normalize_chunks chunks shape = Ok res ->
  Forall (Forall (fun c => 0 <= c)) res.
Proof.
  intros Hshape Hres. apply normalize_chunks_Ok in Hres as [_ Hres].
  eauto using for_dims_nonnegative.
Qed.

Lemma normalize_chunks_nonnegative_witness :
  Forall (Forall (fun c => 0 <= c)) [[10]; [7; 7; 6]].
Proof.
  apply (normalize_chunks_nonnegative (PySeq KList [PyNone; PyInt 7]) [10; 20]).
  - repeat constructor; lia.
  - reflexivity.
Defined.

(** X3: over a shape without negative size, what a call returns is accepted
    as [chunks] and returned unchanged. *)
Theorem normalize_chunks_returned_fixed chunks shape res :
  Forall (fun size => 0 <= size) shape ->
  normalize_chunks chunks shape = Ok res ->
  normalize_chunks (returned res) shape = Ok res.
Proof.
  intros Hshape Hres. apply normalize_chunks_Ok in Hres as [Hlen Hres].
  pose proof (for_dims_length _ _ _ Hlen Hres) as Hlen'.
  unfold returned. rewrite normalize_chunks_seq by now rewrite length_map.
  eauto using for_dims_returned, for_dims_nonnegative.
Qed.

Lemma normalize_chunks_returned_fixed_witness :
  normalize_chunks (returned [[10]; [7; 7; 6]]) [10; 20] = Ok [[10]; [7; 7; 6]].
Proof.
  apply (normalize_chunks_returned_fixed (PySeq KList [PyNone; PyInt 7]) [10; 20]).
  - repeat constructor; lia.
  - reflexivity.
Defined.

(** X4: a call on several dimensions is the calls on a first and a second
    group of dimensions, one after the other, exceptions included. *)
Theorem normalize_chunks_app k specs1 specs2 shape1 shape2 :
  length specs1 = length shape1 ->
  length specs2 = length shape2 ->
  normalize_chunks (PySeq k (specs1 ++ specs2)) (shape1 ++ shape2) =
    (r1 <- normalize_chunks (PySeq k specs1) shape1 ;;
     r2 <- normalize_chunks (PySeq k specs2) shape2 ;;
     Ok (r1 ++ r2)).
Proof.
  intros H1 H2.
  rewrite !normalize_chunks_seq by (rewrite ?length_app; congruence).
  now apply for_dims_app.
Qed.

Lemma normalize_chunks_app_witness :
  normalize_chunks (PySeq KList ([PyInt 5] ++ [PySeq KTuple [PyInt 5; PyNone]]))
    ([10] ++ [20]) =
    (r1 <- normalize_chunks (PySeq KList [PyInt 5]) [10] ;;
     r2 <- normalize_chunks (PySeq KList [PySeq KTuple [PyInt 5; PyNone]]) [20] ;;
     Ok (r1 ++ r2)).
Proof.
  apply (normalize_chunks_app KList [PyInt 5] [PySeq KTuple [PyInt 5; PyNone]] [10] [20]);
    reflexivity.
Defined.

(** ** numpy arrays as the [chunks] argument *)

(** X5: a 1-d array given as [chunks] is read as the list of its entries,
    whatever its dtype. *)
Theorem normalize_chunks_flat_array (shape : list Z) :
  (forall flat : list Z,
      normalize_chunks (PyIntArray [length flat] flat) shape
      = normalize_chunks (PySeq KList (map PyInt flat)) shape)
  /\ (forall flat : list pyval,
         normalize_chunks (PyArray [length flat] flat) shape
         = normalize_chunks (PySeq KList flat) shape).
Proof.
  split; intros flat; unfold normalize_chunks; cbn [as_sequence].
  - now rewrite <- (length_map PyInt flat), tolist_flat.
  - now rewrite tolist_flat.
Qed.

(** ** Whole-number chunk sizes, again *)

Lemma for_dims_replicate (shape : list Z) (chunk : pyval) (c : Z) :
  whole chunk = Some c -> 0 < c ->
  Forall (fun size => - maxsize - 1 <= size / c <= max_list_len) shape ->
  for_dims shape (replicate (length shape) chunk)
  = Ok (map (fun size => replicate (Z.to_nat (size / c)) c
                         ++ (if size mod c =? 0 then [] else [size mod c])) shape).
Proof.
  intros Hc Hpos. induction 1 as [|s shape Hs _ IH]; [reflexivity|].
  cbn [length replicate for_dims map].
  now rewrite (normalize_dim_fits _ _ _ Hc Hpos Hs), IH.
Qed.

(** X6: a positive whole number [c] is accepted as [chunks] for every shape
    each of whose dimensions gives a number of chunks [size // c] that
    [[c] * div] builds a list for, and cuts each dimension into [size // c]
    chunks of [c] and the remainder, if any. *)
Theorem normalize_chunks_scalar_accepted (chunks : pyval) (shape : list Z) (c : Z) :
  whole chunks = Some c -> 0 < c ->
  Forall (fun size => - maxsize - 1 <= size / c <= max_list_len) shape ->
  normalize_chunks chunks shape
  = Ok (map (fun size => replicate (Z.to_nat (size / c)) c
                         ++ (if size mod c =? 0 then [] else [size mod c])) shape).
Proof.
  intros Hc Hpos Hfits. unfold normalize_chunks.
  assert (as_sequence chunks shape
          = Ok (PySeq KTuple (replicate (length shape) chunks))) as ->
    by (destruct chunks; try discriminate; reflexivity).
  cbn [bind py_len py_items]. rewrite length_replicate, Nat.eqb_refl.
  now apply for_dims_replicate.
Qed.

Lemma normalize_chunks_scalar_accepted_witness :
  normalize_chunks (PyFloat (S754_finite false 3 1)) [10; 20; 0]
  = Ok [[6; 4]; [6; 6; 6; 2]; []].
Proof.
  apply (normalize_chunks_scalar_accepted (PyFloat (S754_finite false 3 1)) [10; 20; 0] 6);
    [reflexivity | lia | repeat constructor; vm_compute; discriminate].
Defined.

(** X7: in a call that returns, a dimension of non-negative size cut by a
    whole-number chunk size [c] has [ceil(size / c)] chunks, none empty and
    none above [c]. *)
Theorem normalize_chunks_chunk_count chunks shape res i size chunk c :
  normalize_chunks chunks shape = Ok res ->
  dimension chunks shape i size chunk ->
  whole chunk = Some c -> 0 <= size ->
  exists part,
    res !! i = Some part
    /\ Z.of_nat (length part) = (size + c - 1) / c
    /\ Forall (fun x => 0 < x <= c) part.
Proof.
  intros Hres Hdim Hc Hsize.
  destruct (normalize_chunks_dimension _ _ _ _ _ _ Hres Hdim) as (part & Hpart & Hi).
  exists part. split; [exact Hi|].
  destruct (normalize_dim_whole_Ok _ _ _ _ Hc Hpart) as [Hpos ->].
  pose proof (Z.div_mod size c ltac:(lia)) as Hdm.
  pose proof (Z.mod_pos_bound size c ltac:(lia)) as Hm.
  pose proof (Z.div_pos size c ltac:(lia) ltac:(lia)) as Hd.
  split.
  - rewrite length_app, length_replicate, Nat2Z.inj_add, Z2Nat.id by lia.
    destruct (Z.eqb_spec (size mod c) 0) as [E|E]; cbn [length].
    + apply (Z.div_unique _ _ _ (c - 1)); lia.
    + apply (Z.div_unique _ _ _ (size mod c - 1)); lia.
  - apply Forall_app. split.
    + apply Forall_replicate. lia.
    + destruct (Z.eqb_spec (size mod c) 0); repeat constructor; lia.
Qed.

Lemma normalize_chunks_chunk_count_witness :
  exists part,
    [[10]; [7; 7; 6]] !! 1%nat = Some part
    /\ Z.of_nat (length part) = (20 + 7 - 1) / 7
    /\ Forall (fun x => 0 < x <= 7) part.
Proof.
  apply (normalize_chunks_chunk_count (PySeq KList [PyNone; PyInt 7]) [10; 20]
           [[10]; [7; 7; 6]] 1%nat 20 (PyInt 7) 7).
  - reflexivity.
  - split; reflexivity.
  - reflexivity.
  - lia.
Defined.

(** ** Floats *)

Lemma whole_as_int (c : pyval) : whole (as_int c) = whole c.
Proof.
  destruct c; try reflexivity. cbn [as_int whole].
  destruct (is_integer f) eqn:Hf; cbn [whole]; now rewrite ?Hf.
Qed.

Lemma as_int_not_whole (c : pyval) : whole c = None -> as_int c = c.
Proof.
  destruct c; try reflexivity. cbn [as_int whole].
  now destruct (is_integer f).
Qed.

Lemma normalize_dim_as_int (size : Z) (c : pyval) :
  normalize_dim size (as_int c) = normalize_dim size c.
Proof.
  destruct (whole c) as [n|] eqn:Hc.
  - rewrite (normalize_dim_whole _ c n Hc).
    apply normalize_dim_whole. now rewrite whole_as_int.
  - now rewrite as_int_not_whole.
Qed.

Lemma nested_loop_as_int (items : list pyval) :
  forall cur_chunks none_index,
    nested_loop (map as_int items) cur_chunks none_index
    = nested_loop items cur_chunks none_index.
Proof.
  induction items as [|c items IH]; intros cur ni; [reflexivity|].
  cbn [map nested_loop]. rewrite whole_as_int.
  destruct (whole c) as [n|] eqn:Hc.
  - destruct (n <? 0); [reflexivity|]. cbn [bind]. apply IH.
  - rewrite (as_int_not_whole _ Hc).
    destruct c; try reflexivity. destruct ni; [reflexivity|]. cbn [bind]. apply IH.
Qed.

Lemma for_dims_ext (shape : list Z) :
  forall specs specs' : list pyval,
    Forall2 (fun a b => forall size, normalize_dim size a = normalize_dim size b)
      specs specs' ->
    for_dims shape specs = for_dims shape specs'.
Proof.
  induction shape as [|s shape IH]; intros specs specs' H; [reflexivity|].
  destruct H as [|a b specs specs' Hab H]; [reflexivity|].
  cbn [for_dims]. now rewrite Hab, (IH _ _ H).
Qed.

(** X8: a float without fractional part counts as its [int] wherever a chunk
    size is read; any other float is refused as a chunk size with
    [TypeError]. *)
Theorem normalize_chunks_floats (shape : list Z) :
  (forall chunks,
      normalize_chunks (ints_for_floats chunks) shape = normalize_chunks chunks shape)
  /\ (forall f size,
         is_integer f = false ->
         normalize_chunks (PyFloat f) (size :: shape) = Raise TypeError).
Proof.
  split.
  - intros chunks.
    destruct chunks as [| n | f | | k specs | dims flat | dims flat | ];
      try reflexivity.
    + cbn [ints_for_floats as_int].
      destruct (is_integer f) eqn:Hf; [|reflexivity].
      unfold normalize_chunks. cbn [as_sequence bind py_len py_items].
      rewrite !length_replicate, Nat.eqb_refl. cbn [negb].
      apply for_dims_ext, Forall2_replicate. intros size.
      rewrite <- (normalize_dim_as_int size (PyFloat f)).
      cbn [as_int]. now rewrite Hf.
    + unfold normalize_chunks. cbn [ints_for_floats as_sequence bind py_len py_items].
      rewrite length_map. destruct (negb _); [reflexivity|].
      apply for_dims_ext, Forall2_fmap_l, Forall_Forall2_diag, Forall_forall.
      intros chunk _ size.
      destruct chunk; try apply normalize_dim_as_int.
      rewrite !normalize_dim_seq. now rewrite nested_loop_as_int.
  - intros f size Hf. unfold normalize_chunks.
    cbn [as_sequence bind py_len py_items length replicate Nat.eqb].
    rewrite length_replicate, Nat.eqb_refl. cbn [negb for_dims].
    unfold normalize_dim. cbn [whole]. now rewrite Hf.
Qed.

Lemma normalize_chunks_floats_witness :
  normalize_chunks (PyFloat (S754_finite false 3 (-1))) [10; 20] = Raise TypeError.
Proof.
  apply (proj2 (normalize_chunks_floats [20]) (S754_finite false 3 (-1)) 10).
  reflexivity.
Defined.

(** ** More on masks *)

(** X9: a variant has exactly one of [structure] and [value], and
    [complement] and [structure] together tell the four variants apart. *)
Theorem mask_flags_identify_variant (object : Type) (m1 m2 : Mask.instance object) :
  Mask.is_variant (Mask.class_of m1) = true ->
  Mask.is_variant (Mask.class_of m2) = true ->
  Mask.structure m1 = negb (Mask.value m1)
  /\ (Mask.complement m1 = Mask.complement m2 ->
      Mask.structure m1 = Mask.structure m2 ->
      Mask.class_of m1 = Mask.class_of m2).
Proof.
  destruct m1 as [[] o1], m2 as [[] o2]; intros H1 H2; try discriminate;
    split; try reflexivity; intros; try reflexivity; discriminate.
Qed.

Lemma mask_flags_identify_variant_witness :
  Mask.structure (Mask.New Mask.ValueMask 1%nat)
  = negb (Mask.value (Mask.New Mask.ValueMask 1%nat))
  /\ (Mask.complement (Mask.New Mask.ValueMask 1%nat)
      = Mask.complement (Mask.New Mask.ValueMask 2%nat) ->
      Mask.structure (Mask.New Mask.ValueMask 1%nat)
      = Mask.structure (Mask.New Mask.ValueMask 2%nat) ->
      Mask.ValueMask = Mask.ValueMask).
Proof.
  apply (mask_flags_identify_variant nat (Mask.New Mask.ValueMask 1%nat)
           (Mask.New Mask.ValueMask 2%nat)); reflexivity.
Defined.

(** X10: [~] never gives back the mask it is applied to, never gives an
    instance of the base class, and sends different masks to different
    masks. *)
Theorem mask_invert_apart (object : Type) (m1 m2 m' : Mask.instance object) :
  Mask.invert m1 = Ok m' ->
  m' <> m1
  /\ Mask.is_variant (Mask.class_of m') = true
  /\ (Mask.invert m2 = Ok m' -> m1 = m2).
Proof.
  destruct m1 as [[] o1]; intros H1; try discriminate;
    injection H1 as <-; (split; [discriminate|]); (split; [reflexivity|]);
    destruct m2 as [[] o2]; intros H2; try discriminate;
    injection H2 as ->; reflexivity.
Qed.

Lemma mask_invert_apart_witness :
  Mask.New Mask.ComplementedValueMask 7%nat <> Mask.New Mask.ValueMask 7%nat
  /\ Mask.is_variant Mask.ComplementedValueMask = true
  /\ (Mask.invert (Mask.New Mask.ValueMask 7%nat)
      = Ok (Mask.New Mask.ComplementedValueMask 7%nat) ->
      Mask.New Mask.ValueMask 7%nat = Mask.New Mask.ValueMask 7%nat).
Proof.
  apply (mask_invert_apart nat (Mask.New Mask.ValueMask 7%nat)
           (Mask.New Mask.ValueMask 7%nat)). reflexivity.
Defined.

(** ** [get_order] *)

Lemma lower_char_idempotent (c : ascii) :
  Utils.lower_char (Utils.lower_char c) = Utils.lower_char c.
Proof. destruct c as [[] [] [] [] [] [] [] []]; vm_compute; reflexivity. Qed.

Lemma lower_idempotent (s : string) : Utils.lower (Utils.lower s) = Utils.lower s.
Proof.
  induction s as [|c s IH]; [reflexivity|].
  cbn [Utils.lower]. now rewrite lower_char_idempotent, IH.
Qed.

(** X11: whatever [get_order] returns is ["rowwise"] or ["columnwise"], and
    it returns each of these two unchanged. *)
Theorem get_order_canonical (order v : string) :
  Utils.get_order order = Utils.Return v ->
  (v = "rowwise" \/ v = "columnwise")
  /\ Utils.get_order v = Utils.Return v.
Proof.
  unfold Utils.get_order at 1. cbv zeta.
  repeat case_bool_decide; intros Hv; try discriminate; injection Hv as <-;
    (split; [auto | vm_compute; reflexivity]).
Qed.

Lemma get_order_canonical_witness :
  ("columnwise" = "rowwise" \/ "columnwise" = "columnwise")
  /\ Utils.get_order "columnwise" = Utils.Return "columnwise".
Proof. apply (get_order_canonical "Cols" "columnwise"). vm_compute. reflexivity. Defined.

(** X12: [get_order] does not look at the case of its argument: putting it in
    lower case first changes nothing. *)
Theorem get_order_ignores_case (order : string) :
  Utils.get_order (Utils.lower order) = Utils.get_order order.
Proof. unfold Utils.get_order. now rewrite lower_idempotent. Qed.

(** ** [_get_subdtype] *)

(** X13: the dtype [_get_subdtype] returns has no [subdtype]; applying it
    again changes nothing. *)
Theorem get_subdtype_base (dtype : Utils.np_dtype) :
  Utils.subdtype (Utils._get_subdtype dtype) = None
  /\ Utils._get_subdtype (Utils._get_subdtype dtype) = Utils._get_subdtype dtype.
Proof. induction dtype as [name|base IH shape]; [split; reflexivity | exact IH]. Qed.

(** ** [get_shape] *)

Lemma first_with_shape_Some is_subarray arrays arr :
  Utils.first_with_shape is_subarray arrays = Some arr ->
  exists name pre post,
    arrays = pre ++ (name, arr) :: post
    /\ Utils.breaks is_subarray name arr = true
    /\ Forall (fun item => Utils.breaks is_subarray item.1 item.2 = false) pre.
Proof.
  induction arrays as [|[name a] arrays IH]; [discriminate|].
  cbn [Utils.first_with_shape].
  destruct (Utils.breaks is_subarray name a) eqn:Hb.
  - intros [= ->]. exists name, [], arrays. auto.
  - intros H. destruct (IH H) as (n & pre & post & -> & Hn & Hpre).
    exists n, ((name, a) :: pre), post. repeat split; auto.
Qed.

Lemma first_with_shape_app is_subarray pre arrays :
  Forall (fun item => Utils.breaks is_subarray item.1 item.2 = false) pre ->
  Utils.first_with_shape is_subarray (pre ++ arrays)
  = Utils.first_with_shape is_subarray arrays.
Proof.
  induction 1 as [|[name a] pre Hb _ IH]; [reflexivity|].
  cbn [app Utils.first_with_shape]. cbn [fst snd] in Hb. now rewrite Hb.
Qed.

Lemma breaks_two_dimensions is_subarray name arr :
  Utils.breaks is_subarray name arr = true -> (2 <= length arr)%nat.
Proof.
  unfold Utils.breaks. destruct (_ && _); intros H.
  - apply Nat.leb_le in H. lia.
  - apply Nat.eqb_eq in H. lia.
Qed.

(** X14: a dimension given to [get_shape] is returned as it is, and with both
    given nothing else is looked at. *)
Theorem get_shape_keeps_given nrows ncols dtype arrays :
  (forall r c, nrows = Some r -> ncols = Some c ->
               Utils.get_shape nrows ncols dtype arrays = Utils.Return (r, c))
  /\ (forall r c,
         Utils.get_shape nrows ncols dtype arrays = Utils.Return (r, c) ->
         (forall n, nrows = Some n -> r = n) /\ (forall m, ncols = Some m -> c = m)).
Proof.
  split.
  - now intros r c -> ->.
  - intros r c. unfold Utils.get_shape.
    destruct nrows as [n|], ncols as [m|], dtype as [dt|]; try discriminate;
      try (intros [= <- <-]; split; congruence);
      destruct (Utils.first_with_shape _ arrays); try discriminate;
      intros [= <- <-]; split; congruence.
Qed.

Lemma get_shape_keeps_given_witness :
  Utils.get_shape (Some 3) None (Some {| Utils.np_type := Utils.DType "int64" |})
    [("values", [5; 7])] = Utils.Return (3, 7)
  /\ ((forall n, Some 3 = Some n -> 3 = n) /\ (forall m, @None Z = Some m -> 7 = m)).
Proof.
  split; [reflexivity|].
  apply (proj2 (get_shape_keeps_given (Some 3) None
                  (Some {| Utils.np_type := Utils.DType "int64" |})
                  [("values", [5; 7])]) 3 7).
  reflexivity.
Defined.

(** X15: a dimension that is not given is read off the first array, in
    keyword order, on which the loop breaks; that array has the two leading
    dimensions the code indexes. *)
Theorem get_shape_first_array nrows ncols dtype pre name arr post :
  let is_subarray :=
    match Utils.subdtype (Utils.np_type dtype) with Some _ => true | None => false end in
  Forall (fun item => Utils.breaks is_subarray item.1 item.2 = false) pre ->
  Utils.breaks is_subarray name arr = true ->
  exists r c,
    arr !! 0%nat = Some r /\ arr !! 1%nat = Some c
    /\ Utils.get_shape nrows ncols (Some dtype) (pre ++ (name, arr) :: post)
       = Utils.Return (default r nrows, default c ncols).
Proof.
  intros is_subarray Hpre Hb.
  pose proof (breaks_two_dimensions _ _ _ Hb) as Hlen.
  destruct arr as [|r [|c arr]]; cbn [length] in Hlen; try lia.
  exists r, c. repeat split.
  unfold Utils.get_shape. fold is_subarray.
  rewrite (first_with_shape_app _ _ _ Hpre). cbn [Utils.first_with_shape].
  rewrite Hb.
  destruct nrows, ncols; reflexivity.
Qed.

Lemma get_shape_first_array_witness :
  exists r c,
    [4; 6; 2] !! 0%nat = Some r /\ [4; 6; 2] !! 1%nat = Some c
    /\ Utils.get_shape None None
         (Some {| Utils.np_type := Utils.SubArray (Utils.DType "int64") [2%nat] |})
         ([("values", [5; 7])] ++ ("values", [4; 6; 2]) :: [("indices", [9; 9])])
       = Utils.Return (default r None, default c None).
Proof.
  apply (get_shape_first_array None None
           {| Utils.np_type := Utils.SubArray (Utils.DType "int64") [2%nat] |}
           [("values", [5; 7])] "values" [4; 6; 2] [("indices", [9; 9])]).
  - repeat constructor.
  - reflexivity.
Defined.

(** X16: with a dimension missing, [get_shape] ends in [AttributeError] when
    no dtype is given, and in [ValueError] when the loop breaks on none of the
    arrays. *)
Theorem get_shape_errors nrows ncols arrays :
  nrows = None \/ ncols = None ->
  Utils.get_shape nrows ncols None arrays = Utils.Throw Utils.AttributeError
  /\ (forall dtype,
         Forall (fun item =>
                   Utils.breaks
                     match Utils.subdtype (Utils.np_type dtype) with
                     | Some _ => true
                     | None => false
                     end item.1 item.2 = false) arrays ->
         Utils.get_shape nrows ncols (Some dtype) arrays = Utils.Throw Utils.ValueError).
Proof.
  intros Hmissing. split.
  - destruct nrows, ncols; try reflexivity. now destruct Hmissing.
  - intros dtype Hnone. unfold Utils.get_shape.
    rewrite <- (app_nil_r arrays), (first_with_shape_app _ _ _ Hnone).
    destruct nrows, ncols; try reflexivity. now destruct Hmissing.
Qed.

Lemma get_shape_errors_witness :
  Utils.get_shape None (Some 4) None [("values", [5; 7])]
  = Utils.Throw Utils.AttributeError
  /\ Utils.get_shape None (Some 4)
       (Some {| Utils.np_type := Utils.SubArray (Utils.DType "int64") [2%nat] |})
       [("values", [5; 7]); ("indices", [9])]
     = Utils.Throw Utils.ValueError.
Proof.
  destruct (get_shape_errors None (Some 4) [("values", [5; 7])] (or_introl eq_refl))
    as [Hattr _].
  destruct (get_shape_errors None (Some 4) [("values", [5; 7]); ("indices", [9])]
              (or_introl eq_refl)) as [_ Hvalue].
  split; [exact Hattr|].
  apply Hvalue. repeat constructor.
Defined.

(** ** [libget] *)

Lemma libget_GxB {V : Type} (lib : gmap string V) (rest : string) :
  Utils.libget lib ("GxB_" +:+ rest) = Utils.getattr lib ("GxB_" +:+ rest).
Proof.
  unfold Utils.libget. cbv zeta.
  change (Utils.slice_from 4 ("GxB_" +:+ rest)) with rest.
  now destruct (Utils.getattr lib ("GxB_" +:+ rest)) as [v|[]].
Qed.

Lemma libget_missing {V : Type} (lib : gmap string V) (name : string) :
  lib !! name = None ->
  Utils.libget lib name = Utils.getattr lib ("GxB_" +:+ Utils.slice_from 4 name).
Proof.
  intros Hname. unfold Utils.libget. unfold Utils.getattr at 1. rewrite Hname.
  cbv zeta. now destruct (Utils.getattr lib _) as [v|[]].
Qed.

(** X17: an attribute [name] of [lib] is what [libget] returns; when [lib]
    has none, [libget] answers as it does for [GxB_] followed by [name]
    without its first four characters, so that a missing [GrB_x] is looked
    up as [GxB_x]. *)
Theorem libget_fallback {V : Type} (lib : gmap string V) (name : string) :
  (forall v, lib !! name = Some v -> Utils.libget lib name = Utils.Return v)
  /\ (lib !! name = None ->
      Utils.libget lib name = Utils.libget lib ("GxB_" +:+ Utils.slice_from 4 name))
  /\ (forall rest,
         name = "GrB_" +:+ rest -> lib !! name = None ->
         Utils.libget lib name = Utils.getattr lib ("GxB_" +:+ rest)).
Proof.
  split; [|split].
  - intros v Hv. unfold Utils.libget, Utils.getattr. now rewrite Hv.
  - intros Hname. now rewrite (libget_missing _ _ Hname), libget_GxB.
  - intros rest -> Hname. rewrite (libget_missing _ _ Hname).
    now change (Utils.slice_from 4 ("GrB_" +:+ rest)) with rest.
Qed.

Lemma libget_fallback_witness :
  Utils.libget (<["GxB_Matrix_split" := 7%nat]> ∅) "GrB_Matrix_split"
  = Utils.getattr (<["GxB_Matrix_split" := 7%nat]> ∅) "GxB_Matrix_split".
Proof.
  apply (proj2 (proj2 (libget_fallback (<["GxB_Matrix_split" := 7%nat]> ∅)
                         "GrB_Matrix_split")) "Matrix_split");
    [reflexivity | vm_compute; reflexivity].
Defined.

(** ** [str.index] *)

Lemma find_Some (sub s : list ascii) :
  forall i j,
    Utils.find sub s i = Some j ->
    exists k, j = (i + k)%nat /\ (k <= length s)%nat
              /\ sub `prefix_of` drop k s
              /\ forall k', (k' < k)%nat -> ~ sub `prefix_of` drop k' s.
Proof.
  induction s as [|a s IH]; intros i j; cbn [Utils.find]; case_bool_decide as Hp.
  - intros [= <-]. exists 0%nat. repeat split; auto with lia.
  - discriminate.
  - intros [= <-]. exists 0%nat. repeat split; cbn [length]; auto with lia.
  - intros Hfind. destruct (IH _ _ Hfind) as (k & -> & Hk & Hat & Hmin).
    exists (S k). repeat split; cbn [length]; auto with lia.
    intros [|k'] Hk'; [exact Hp|]. apply Hmin. lia.
Qed.

Lemma find_None (sub s : list ascii) :
  forall i, Utils.find sub s i = None -> forall k, ~ sub `prefix_of` drop k s.
Proof.
  induction s as [|a s IH]; intros i; cbn [Utils.find]; case_bool_decide as Hp;
    try discriminate.
  - intros _ k. now rewrite drop_nil.
  - intros Hfind [|k]; [exact Hp|]. exact (IH _ Hfind k).
Qed.

Lemma index_Some (s sub : list ascii) (start j : nat) :
  Utils.index s sub start = Some j ->
  (start <= j <= length s)%nat
  /\ sub `prefix_of` drop j s
  /\ forall j', (start <= j' < j)%nat -> ~ sub `prefix_of` drop j' s.
Proof.
  unfold Utils.index. destruct (Nat.leb_spec start (length s)); [|discriminate].
  intros Hfind. apply find_Some in Hfind as (k & -> & Hk & Hat & Hmin).
  rewrite length_drop in Hk. rewrite drop_drop in Hat.
  repeat split; auto with lia.
  intros j' Hj'. replace j' with (start + (j' - start))%nat by lia.
  rewrite <- drop_drop. apply Hmin. lia.
Qed.

Lemma index_None (s sub : list ascii) (start j : nat) :
  Utils.index s sub start = None ->
  (start <= j <= length s)%nat -> ~ sub `prefix_of` drop j s.
Proof.
  unfold Utils.index. destruct (Nat.leb_spec start (length s)); [|lia].
  intros Hfind Hj. replace j with (start + (j - start))%nat by lia.
  rewrite <- drop_drop. exact (find_None _ _ _ Hfind _).
Qed.

Lemma index_at (s sub : list ascii) (j : nat) :
  (j <= length s)%nat -> sub `prefix_of` drop j s -> Utils.index s sub j = Some j.
Proof.
  intros Hj Hat. unfold Utils.index.
  destruct (Nat.leb_spec j (length s)); [|lia].
  destruct (drop j s); cbn [Utils.find]; now rewrite bool_decide_eq_true_2.
Qed.

(** ** The search loop of [_autogenerate_code] *)

Lemma boundaries_loop_regions (orig_text begin end_ : list ascii) (fuel : nat) :
  forall stop boundaries found,
    Utils.boundaries_loop fuel orig_text begin end_ stop boundaries = Some found ->
    exists new,
      found = boundaries ++ new /\ Utils.regions begin end_ orig_text stop new.
Proof.
  induction fuel as [|fuel IH]; intros stop acc found; [discriminate|].
  cbn [Utils.boundaries_loop].
  destruct (Utils.index orig_text begin stop) as [start|] eqn:Hstart.
  - apply index_Some in Hstart as (Hs & Hbegin & Hfirst).
    destruct (Utils.index orig_text end_ start) as [stop'|] eqn:Hstop.
    + apply index_Some in Hstop as (He & Hend & Hfirst').
      intros Hloop. destruct (IH _ _ _ Hloop) as (new & -> & Hnew).
      exists ((start, stop') :: new). rewrite <- app_assoc.
      split; [reflexivity|]. cbn [Utils.regions]. repeat split; auto with lia.
    + intros [= <-]. exists []. rewrite app_nil_r. split; [reflexivity|].
      intros s e Hse He Hb. apply (index_None _ _ _ _ Hstop).
      destruct (Nat.lt_ge_cases s start) as [Hlt|Hge]; [|lia].
      exfalso. apply (Hfirst s); auto with lia.
  - intros [= <-]. exists []. rewrite app_nil_r. split; [reflexivity|].
    intros s e Hse He Hb. exfalso.
    apply (index_None _ _ _ s Hstart); auto with lia.
Qed.

Lemma boundaries_loop_ends (orig_text begin end_ : list ascii) :
  ~ begin `prefix_of` end_ -> ~ end_ `prefix_of` begin ->
  forall fuel stop boundaries,
    (length orig_text - stop < fuel)%nat ->
    exists found,
      Utils.boundaries_loop fuel orig_text begin end_ stop boundaries = Some found.
Proof.
  intros Hbe Heb. induction fuel as [|fuel IH]; intros stop acc Hfuel; [lia|].
  cbn [Utils.boundaries_loop].
  destruct (Utils.index orig_text begin stop) as [start|] eqn:Hstart; [|eauto].
  destruct (Utils.index orig_text end_ start) as [stop'|] eqn:Hstop; [|eauto].
  apply index_Some in Hstart as (Hs & Hbegin & _).
  apply index_Some in Hstop as (He & Hend & _).
  apply IH.
  destruct (Nat.eq_dec stop' start) as [->|]; [|lia].
  destruct (prefix_weak_total _ _ _ Hbegin Hend); tauto.
Qed.

Lemma boundaries_loop_stuck (orig_text begin end_ : list ascii) (i : nat) :
  (i <= length orig_text)%nat ->
  begin `prefix_of` drop i orig_text -> end_ `prefix_of` drop i orig_text ->
  forall fuel boundaries,
    Utils.boundaries_loop fuel orig_text begin end_ i boundaries = None.
Proof.
  intros Hi Hbegin Hend. induction fuel as [|fuel IH]; intros acc; [reflexivity|].
  cbn [Utils.boundaries_loop]. rewrite !index_at by assumption. apply IH.
Qed.

(** ** Replacing the regions *)

Lemma replace_regions (begin end_ text orig_text : list ascii) :
  forall boundaries offset,
    Utils.regions begin end_ orig_text offset boundaries ->
    foldl (Utils.replace_region begin text) orig_text (reverse boundaries)
    = take offset orig_text ++ Utils.splice begin text orig_text offset boundaries.
Proof.
  induction boundaries as [|[start stop] boundaries IH]; intros offset Hregions.
  - cbn [reverse foldl Utils.splice]. now rewrite take_drop.
  - destruct Hregions as (Hos & Hstop & _ & _ & _ & _ & Hrest).
    rewrite reverse_cons, foldl_app. cbn [foldl]. rewrite (IH _ Hrest).
    unfold Utils.replace_region. cbn [fst snd Utils.splice].
    assert (Hlen : length (take stop orig_text) = stop)
      by (rewrite length_take; lia).
    rewrite take_app_le by lia. rewrite take_take.
    rewrite (drop_app_length' _ _ _ (eq_sym Hlen)).
    replace (start `min` stop)%nat with (offset + (start - offset))%nat by lia.
    rewrite <- take_take_drop. now rewrite <- !app_assoc.
Qed.

(** ** [_autogenerate_code] *)

(** X19: the text written is [orig_text] with each region replaced by the
    [begin] marker and [text]; the regions are found from left to right, each
    from the first [begin] marker at or after the end of the one before to the
    first [end] marker at or after it, and everything outside them, the [end]
    markers included, is kept. *)
Theorem autogenerate_new_text (orig_text text begin end_ new_text : list ascii) :
  Utils.new_text_of orig_text text begin end_ = Some new_text ->
  exists boundaries,
    Utils.regions begin end_ orig_text 0 boundaries
    /\ new_text = Utils.splice begin text orig_text 0 boundaries.
Proof.
  unfold Utils.new_text_of.
  destruct (Utils.boundaries_loop _ _ _ _ _ _) as [found|] eqn:Hloop; [|discriminate].
  intros [= <-].
  apply boundaries_loop_regions in Hloop as (boundaries & -> & Hregions).
  exists boundaries. split; [exact Hregions|].
  cbn [app]. now rewrite (replace_regions _ _ _ _ _ _ Hregions).
Qed.

Lemma autogenerate_new_text_witness :
  exists boundaries,
    Utils.regions ["<"; "."]%char [">"; "."]%char
      ["a"; "<"; "."; "o"; "l"; "d"; ">"; "."; "z"]%char 0 boundaries
    /\ ["a"; "<"; "."; "n"; "e"; "w"; ">"; "."; "z"]%char
       = Utils.splice ["<"; "."]%char ["n"; "e"; "w"]%char
           ["a"; "<"; "."; "o"; "l"; "d"; ">"; "."; "z"]%char 0 boundaries.
Proof.
  apply (autogenerate_new_text
           ["a"; "<"; "."; "o"; "l"; "d"; ">"; "."; "z"]%char ["n"; "e"; "w"]%char
           ["<"; "."]%char [">"; "."]%char).
  vm_compute. reflexivity.
Defined.

(** X20: when no [begin] marker is followed by an [end] marker, the text is
    left as it is. *)
Theorem autogenerate_without_region (orig_text text begin end_ : list ascii) :
  (forall start stop,
      (start <= stop <= length orig_text)%nat ->
      begin `prefix_of` drop start orig_text ->
      ~ end_ `prefix_of` drop stop orig_text) ->
  Utils.new_text_of orig_text text begin end_ = Some orig_text.
Proof.
  intros Hnone. unfold Utils.new_text_of. cbn [Utils.boundaries_loop].
  destruct (Utils.index orig_text begin 0) as [start|] eqn:Hstart; [|reflexivity].
  destruct (Utils.index orig_text end_ start) as [stop|] eqn:Hstop; [|reflexivity].
  apply index_Some in Hstart as (_ & Hbegin & _).
  apply index_Some in Hstop as (He & Hend & _).
  destruct (Hnone start stop); auto with lia.
Qed.

Lemma autogenerate_without_region_witness :
  Utils.new_text_of ["a"; "b"]%char ["n"]%char ["<"]%char [">"]%char
  = Some ["a"; "b"]%char.
Proof.
  apply (autogenerate_without_region ["a"; "b"]%char ["n"]%char ["<"]%char [">"]%char).
  intros start stop Hle Hbegin. exfalso. revert Hbegin.
  destruct start as [|[|start]]; cbn [drop]; intros Hbegin.
  - now apply prefix_cons_inv_1 in Hbegin.
  - now apply prefix_cons_inv_1 in Hbegin.
  - rewrite drop_nil in Hbegin. now apply prefix_nil_inv in Hbegin.
Defined.

(** X21: with markers neither of which starts with the other, the search loop
    ends within one round more than the file has characters; the default
    markers are such, with any [specializer]. *)
Theorem autogenerate_ends :
  (forall orig_text text begin end_,
      ~ begin `prefix_of` end_ -> ~ end_ `prefix_of` begin ->
      exists new_text, Utils.new_text_of orig_text text begin end_ = Some new_text)
  /\ (forall black files filename text specializer,
         exists result,
           Utils._autogenerate_code black files filename text specializer
             Utils.default_begin Utils.default_end = Some result).
Proof.
  assert (Hends : forall orig_text text begin end_,
             ~ begin `prefix_of` end_ -> ~ end_ `prefix_of` begin ->
             exists new_text,
               Utils.new_text_of orig_text text begin end_ = Some new_text).
  { intros orig_text text begin end_ Hbe Heb. unfold Utils.new_text_of.
    destruct (boundaries_loop_ends orig_text begin end_ Hbe Heb
                (S (length orig_text)) 0%nat []) as [found ->]; [lia|eauto]. }
  split; [exact Hends|].
  intros black files filename text specializer. unfold Utils._autogenerate_code.
  destruct (files !! filename) as [content|]; [|eauto].
  destruct (Utils.markers specializer Utils.default_begin Utils.default_end)
    as [begin end_] eqn:Hmarkers. cbv zeta.
  destruct (Hends (Utils.universal_newlines content) text begin end_)
    as [new_text ->].
  - destruct specializer as [[|c specializer]|]; injection Hmarkers as <- <-;
      intros H; do 2 apply prefix_cons_inv_2 in H;
      now apply prefix_cons_inv_1 in H.
  - destruct specializer as [[|c specializer]|]; injection Hmarkers as <- <-;
      intros H; do 2 apply prefix_cons_inv_2 in H;
      now apply prefix_cons_inv_1 in H.
  - destruct (black filename _) as [ok files']. eauto.
Qed.

Lemma autogenerate_ends_witness :
  exists new_text,
    Utils.new_text_of ["a"; "<"; "b"; ">"]%char ["n"]%char ["<"]%char [">"]%char
    = Some new_text.
Proof.
  apply (proj1 autogenerate_ends ["a"; "<"; "b"; ">"]%char ["n"]%char
           ["<"]%char [">"]%char);
    intros H; now apply prefix_cons_inv_1 in H.
Defined.

(** X22: given the same string as [begin] and [end] marker, the search loop
    never ends once that string occurs in the file. *)
Theorem autogenerate_same_marker_loops (orig_text text marker : list ascii) (i : nat) :
  (i <= length orig_text)%nat ->
  marker `prefix_of` drop i orig_text ->
  (forall fuel, Utils.boundaries_loop fuel orig_text marker marker 0 [] = None)
  /\ Utils.new_text_of orig_text text marker marker = None.
Proof.
  intros Hi Hat.
  assert (Hloop : forall fuel,
             Utils.boundaries_loop fuel orig_text marker marker 0 [] = None).
  { intros [|fuel]; [reflexivity|]. cbn [Utils.boundaries_loop].
    destruct (Utils.index orig_text marker 0) as [start|] eqn:Hstart.
    - apply index_Some in Hstart as (Hs & Hbegin & _).
      rewrite index_at by (assumption || lia).
      apply boundaries_loop_stuck; auto with lia.
    - destruct (index_None _ _ _ i Hstart); auto with lia. }
  split; [exact Hloop|]. unfold Utils.new_text_of. now rewrite Hloop.
Qed.

Lemma autogenerate_same_marker_loops_witness :
  (forall fuel,
      Utils.boundaries_loop fuel ["a"; "#"; "b"]%char ["#"]%char ["#"]%char 0 [] = None)
  /\ Utils.new_text_of ["a"; "#"; "b"]%char ["n"]%char ["#"]%char ["#"]%char = None.
Proof.
  apply (autogenerate_same_marker_loops ["a"; "#"; "b"]%char ["n"]%char ["#"]%char 1).
  - cbn [length]. lia.
  - cbn [drop]. now exists ["b"%char].
Defined.

Lemma boundaries_loop_more (orig_text begin end_ : list ascii) (fuel : nat) :
  forall stop boundaries found extra,
    Utils.boundaries_loop fuel orig_text begin end_ stop boundaries = Some found ->
    Utils.boundaries_loop (fuel + extra) orig_text begin end_ stop boundaries
    = Some found.
Proof.
  induction fuel as [|fuel IH]; intros stop acc found extra; [discriminate|].
  cbn [Utils.boundaries_loop Nat.add].
  destruct (Utils.index orig_text begin stop) as [start|]; [|auto].
  destruct (Utils.index orig_text end_ start); [|auto]. apply IH.
Qed.

(** X24: once the search loop ends, it ends within one round more than the
    file has characters, with the same regions. *)
Theorem autogenerate_rounds (orig_text begin end_ : list ascii) (fuel : nat) :
  forall stop boundaries found,
    Utils.boundaries_loop fuel orig_text begin end_ stop boundaries = Some found ->
    (stop <= length orig_text)%nat ->
    Utils.boundaries_loop (S (length orig_text - stop)) orig_text begin end_ stop
      boundaries = Some found.
Proof.
  induction fuel as [|fuel IH]; intros stop acc found Hloop Hstop; [discriminate|].
  cbn [Utils.boundaries_loop] in *.
  destruct (Utils.index orig_text begin stop) as [start|] eqn:Hstart; [|exact Hloop].
  destruct (Utils.index orig_text end_ start) as [stop'|] eqn:Hstop'; [|exact Hloop].
  apply index_Some in Hstart as (Hs & Hbegin & _).
  apply index_Some in Hstop' as (He & Hend & _).
  destruct (Nat.eq_dec stop' stop) as [->|Hne].
  - assert (start = stop) as -> by lia.
    now rewrite boundaries_loop_stuck in Hloop.
  - apply IH in Hloop; [|lia].
    replace (length orig_text - stop)%nat
      with (S (length orig_text - stop') + (stop' - stop - 1))%nat by lia.
    now apply boundaries_loop_more.
Qed.

Lemma autogenerate_rounds_witness :
  Utils.boundaries_loop (S (length ["a"; "<"; "b"; ">"]%char - 0))
    ["a"; "<"; "b"; ">"]%char ["<"]%char [">"]%char 0 []
  = Some [(1%nat, 3%nat)].
Proof.
  apply (autogenerate_rounds ["a"; "<"; "b"; ">"]%char ["<"]%char [">"]%char 40);
    [reflexivity | cbn [length]; lia].
Defined.
